(** * Binary search service: a shallow embedding of [app/services.py] and
      [app/database.py], and the properties of its search, generation,
      persistence and statistics code. *)

From Stdlib Require Import ZArith List Bool Lia String QArith.
From stdpp Require Import base option list sorting strings gmap.
From Equations Require Import Equations.

Local Open Scope string_scope.
Local Open Scope list_scope.
Local Open Scope Z_scope.

(** ** Python values and exceptions *)

(** The two exceptions the service code can raise on its own: [ValueError]
    (raised by [_generate_array]) and [IndexError] (raised by list
    indexing). *)
Inductive exn :=
| ValueError (msg : string)
| IndexError (msg : string).

Inductive result (A : Type) :=
| Ok (a : A)
| Raise (e : exn).
Arguments Ok {A} a.
Arguments Raise {A} e.

(** [len(xs)] *)
Definition len {A : Type} (xs : list A) : Z := Z.of_nat (length xs).

(** [x or d] for an [Optional[int]] parameter [x]: [None] and [0] are falsy,
    and a falsy [x] yields [d] whatever [d] is. *)
Definition py_or (p : option Z) (d : Z) : Z :=
  match p with
  | Some n => if n =? 0 then d else n
  | None => d
  end.

(** [arr[i]] on a Python list: negative indices count from the end, anything
    outside [-len, len) raises [IndexError]. *)
Definition getitem (arr : list Z) (i : Z) : result Z :=
  let n := len arr in
  let j := if i <? 0 then i + n else i in
  if (0 <=? j) && (j <? n) then
    match arr !! Z.to_nat j with
    | Some x => Ok x
    | None => Raise (IndexError "list index out of range")
    end
  else Raise (IndexError "list index out of range").

(** [not array] for the [Optional[list]] that [load_array] returns. *)
Definition not_array (a : option (list Z)) : bool :=
  match a with
  | None | Some [] => true
  | Some (_ :: _) => false
  end.

(** [sorted(array)] on integers. *)
Definition sorted (l : list Z) : list Z := merge_sort Z.le l.

(** Values of the flat JSON object stored as metadata. *)
Inductive jval :=
| JInt (n : Z)
| JStr (s : string).

(** A Python [dict] in insertion order: [d.get(k, dflt)] and [d[k] = v]. *)
Section Dict.
Context {K V : Type} `{EqDecision K}.

Fixpoint dict_get (d : list (K * V)) (k : K) (dflt : V) : V :=
  match d with
  | [] => dflt
  | (k', v) :: d' => if decide (k' = k) then v else dict_get d' k dflt
  end.

Fixpoint dict_set (d : list (K * V)) (k : K) (v : V) : list (K * V) :=
  match d with
  | [] => [(k, v)]
  | (k', v') :: d' =>
      if decide (k' = k) then (k, v) :: d' else (k', v') :: dict_set d' k v
  end.
End Dict.

(** [max(items, key=lambda x: x[1])]: the first item whose count is maximal. *)
Fixpoint max_by_count (best : Z * Z) (items : list (Z * Z)) : Z * Z :=
  match items with
  | [] => best
  | it :: rest =>
      if snd best <? snd it then max_by_count it rest
      else max_by_count best rest
  end.

(** ** External collaborators *)

(** The [random] module: [random.seed(s)] sets the generator's state from
    the seed alone, [random.randint(a, b)] draws a value and advances the
    state. The generator itself is the standard library's; the service
    calls [randint] only after checking [a < b]. *)
Class PRNG := {
  rng_state : Type;
  rng_seed : Z -> rng_state;
  rng_randint : Z -> Z -> rng_state -> Z * rng_state
}.

(** Python floats, as far as [get_statistics] uses them: [sum(xs)], and
    true division of a float by an [int] converted to float. *)
Class PyFloat := {
  float : Type;
  float_of_int : Z -> float;
  float_sum : list float -> float;
  float_div : float -> float -> float
}.

(** A linear congruential generator, to run the model on concrete inputs. *)
Definition lcg_next (g : Z) : Z := (g * 1103515245 + 12345) mod 2147483648.

#[local] Instance lcg_prng : PRNG := {|
  rng_state := Z;
  rng_seed := fun s => s mod 2147483648;
  rng_randint := fun a b g =>
    let g' := lcg_next g in (a + g' mod (b - a + 1), g')
|}.

(** Exact rational arithmetic, to run the statistics on concrete inputs. *)
#[local] Instance q_float : PyFloat := {|
  float := Q;
  float_of_int := inject_Z;
  float_sum := fun xs => fold_left Qplus xs (inject_Z 0);
  float_div := Qdiv
|}.

(** ** [_binary_search] (services.py, lines 62-74) *)

(** Case analysis on a value that keeps the equation with it. *)
Definition inspect {A : Type} (x : A) : {y : A | x = y} := exist _ x eq_refl.

(** The [while left <= right] loop; [lo] and [hi] are the source's [left]
    and [right]. The interval shrinks at every iteration, which is the
    termination measure. *)
Equations? _binary_search_loop (arr : list Z) (target : Z) (lo hi : Z)
  : result Z by wf (Z.to_nat (hi - lo + 1)) lt :=
_binary_search_loop arr target lo hi with inspect (lo <=? hi) := {
  | exist _ false _ => Ok (-1)
  | exist _ true Hle with inspect (getitem arr ((lo + hi) / 2)) := {
    | exist _ (Raise e) _ => Raise e
    | exist _ (Ok x) _ =>
        if x =? target then Ok ((lo + hi) / 2)
        else if x <? target
             then _binary_search_loop arr target ((lo + hi) / 2 + 1) hi
             else _binary_search_loop arr target lo ((lo + hi) / 2 - 1)
    }
  }.
Proof.
  all: clear _binary_search_loop; apply Z.leb_le in Hle.
  all: assert (lo <= (lo + hi) / 2 <= hi)
      by (split; [apply Z.div_le_lower_bound | apply Z.div_le_upper_bound];
          lia).
  all: lia.
Defined.

Definition _binary_search (arr : list Z) (target : Z) : result Z :=
  _binary_search_loop arr target 0 (len arr - 1).

(** ** The key-value store adapter (database.py) *)

(** The adapter and the two keys it uses. [kv_array] is what the server
    holds under ["binary_search:array"], [kv_metadata] what it holds under
    ["binary_search:metadata"]; both are JSON texts written by [json.dumps]
    and read back by [json.loads], kept here as the values they encode.
    The server is the reachable key-value service the adapter is configured
    for: [connect] succeeds. *)
Record RedisDatabase := {
  client : bool;
  kv_array : option (list Z);
  kv_metadata : option (gmap string jval)
}.

(** ** The service (services.py) *)

Section Service.
Context {prng : PRNG} {pyfloat : PyFloat}.

Record Stats := {
  total_searches : Z;
  successful_searches : Z;
  failed_searches : Z;
  search_times : list float;
  value_counts : list (Z * Z);
  daily_counts : list (string * Z)
}.

Record BinarySearchService := {
  db : RedisDatabase;
  array_size : Z;
  min_value : Z;
  max_value : Z;
  seed : Z;
  _search_stats : Stats
}.

(** [BinarySearchService.__init__] *)
Definition init_service (d : RedisDatabase) : BinarySearchService := {|
  db := d;
  array_size := 100;
  min_value := 1;
  max_value := 1000;
  seed := 42;
  _search_stats := {|
    total_searches := 0;
    successful_searches := 0;
    failed_searches := 0;
    search_times := [];
    value_counts := [];
    daily_counts := []
  |}
|}.

(** What a call can read and change: the service object with its adapter,
    and the state of the module-level random generator. *)
Record World := {
  self : BinarySearchService;
  random : rng_state
}.

(** *** A state monad with exceptions

    A raised exception keeps the state changes made before it. *)
Definition M (A : Type) : Type := World -> result A * World.

Definition ret {A} (a : A) : M A := fun w => (Ok a, w).

Definition bind {A B} (m : M A) (k : A -> M B) : M B :=
  fun w =>
    match m w with
    | (Ok a, w') => k a w'
    | (Raise e, w') => (Raise e, w')
    end.

Definition raise {A} (e : exn) : M A := fun w => (Raise e, w).

Definition lift {A} (r : result A) : M A := fun w => (r, w).

Definition get_self : M BinarySearchService := fun w => (Ok (self w), w).

Definition put_self (s : BinarySearchService) : M unit :=
  fun w => (Ok tt, {| self := s; random := random w |}).

Definition get_db : M RedisDatabase := fun w => (Ok (db (self w)), w).

Definition put_db (d : RedisDatabase) : M unit :=
  fun w =>
    let s := self w in
    (Ok tt,
     {| self := {| db := d; array_size := array_size s;
                   min_value := min_value s; max_value := max_value s;
                   seed := seed s; _search_stats := _search_stats s |};
        random := random w |}).

(** [random.seed(s)] *)
Definition random_seed (s : Z) : M unit :=
  fun w => (Ok tt, {| self := self w; random := rng_seed s |}).

(** [random.randint(a, b)] *)
Definition random_randint (a b : Z) : M Z :=
  fun w =>
    let (x, g) := rng_randint a b (random w) in
    (Ok x, {| self := self w; random := g |}).
End Service.

Notation "x <- m ;; k" := (bind m (fun x => k))
  (at level 100, m at next level, right associativity).
Notation "m ;;; k" := (bind m (fun _ => k))
  (at level 100, right associativity).

(** The result dictionary of [search]. *)
Record SearchOutcome := {
  found : bool;
  index : Z;
  value : Z;
  out_array_size : Z;
  array_min : Z;
  array_max : Z
}.

Section Operations.
Context {prng : PRNG} {pyfloat : PyFloat}.

(** *** database.py *)

Definition connect : M unit :=
  d <- get_db;;
  put_db {| client := true; kv_array := kv_array d;
            kv_metadata := kv_metadata d |}.

(** [if not self.client: await self.connect()] *)
Definition ensure_client : M unit :=
  d <- get_db;;
  if client d then ret tt else connect.

Definition save_array (array : list Z) : M unit :=
  ensure_client;;;
  d <- get_db;;
  put_db {| client := client d; kv_array := Some array;
            kv_metadata := kv_metadata d |}.

Definition load_array : M (option (list Z)) :=
  ensure_client;;;
  d <- get_db;;
  ret (kv_array d).

Definition save_array_metadata (metadata : gmap string jval) : M unit :=
  ensure_client;;;
  d <- get_db;;
  put_db {| client := client d; kv_array := kv_array d;
            kv_metadata := Some metadata |}.

Definition load_array_metadata : M (option (gmap string jval)) :=
  ensure_client;;;
  d <- get_db;;
  ret (kv_metadata d).

Definition clear_data : M unit :=
  ensure_client;;;
  d <- get_db;;
  put_db {| client := client d; kv_array := None; kv_metadata := None |}.

(** *** services.py *)

Definition set_array_size (n : Z) (s : BinarySearchService) :=
  {| db := db s; array_size := n; min_value := min_value s;
     max_value := max_value s; seed := seed s;
     _search_stats := _search_stats s |}.

Definition set_min_value (n : Z) (s : BinarySearchService) :=
  {| db := db s; array_size := array_size s; min_value := n;
     max_value := max_value s; seed := seed s;
     _search_stats := _search_stats s |}.

Definition set_max_value (n : Z) (s : BinarySearchService) :=
  {| db := db s; array_size := array_size s; min_value := min_value s;
     max_value := n; seed := seed s;
     _search_stats := _search_stats s |}.

Definition set_seed (n : Z) (s : BinarySearchService) :=
  {| db := db s; array_size := array_size s; min_value := min_value s;
     max_value := max_value s; seed := n;
     _search_stats := _search_stats s |}.

Definition set_search_stats (st : Stats) (s : BinarySearchService) :=
  {| db := db s; array_size := array_size s; min_value := min_value s;
     max_value := max_value s; seed := seed s;
     _search_stats := st |}.

(** [if p: self.field = p] *)
Definition assign_if_truthy (p : option Z)
    (setter : Z -> BinarySearchService -> BinarySearchService) : M unit :=
  match p with
  | Some n => if n =? 0 then ret tt else s <- get_self;; put_self (setter n s)
  | None => ret tt
  end.

(** [[random.randint(a, b) for _ in range(n)]] *)
Fixpoint randints (n : nat) (a b : Z) : M (list Z) :=
  match n with
  | O => ret []
  | S n' =>
      x <- random_randint a b;;
      xs <- randints n' a b;;
      ret (x :: xs)
  end.

(** Lines 47-60. *)
Definition _generate_array (size min_val max_val seed' : option Z)
  : M (list Z) :=
  s <- get_self;;
  let size := py_or size (array_size s) in
  let min_val := py_or min_val (min_value s) in
  let max_val := py_or max_val (max_value s) in
  let seed' := py_or seed' (seed s) in
  if min_val >=? max_val
  then raise (ValueError "min_value must be less than max_value")
  else
    random_seed seed';;;
    array <- randints (Z.to_nat size) min_val max_val;;
    ret (sorted array).

(** Lines 26-45; [now] is the reading of [datetime.now().isoformat()].
    [if not array] sends both [None] and the empty list to the generating
    branch. *)
Definition initialize_array (now : string) : M (list Z) :=
  array <- load_array;;
  match array with
  | Some (x :: rest) => ret (x :: rest)
  | _ =>
      array <- _generate_array None None None None;;
      save_array array;;;
      s <- get_self;;
      save_array_metadata
        (list_to_map
           [("size", JInt (len array));
            ("min_value", JInt (min_value s));
            ("max_value", JInt (max_value s));
            ("seed", JInt (seed s));
            ("generated_at", JStr now);
            ("source", JStr "generated")]);;;
      ret array
  end.

(** Lines 102-107. *)
Definition get_array (now : string) : M (list Z) :=
  array <- load_array;;
  match array with
  | Some (x :: rest) => ret (x :: rest)
  | _ => initialize_array now
  end.

(** Lines 76-100. *)
Definition search (now : string) (value : Z) : M SearchOutcome :=
  array <- get_array now;;
  first <- lift (getitem array 0);;
  outside <- (if value <? first then ret true
              else last <- lift (getitem array (-1));; ret (value >? last));;
  if (outside : bool) then
    amin <- lift (getitem array 0);;
    amax <- lift (getitem array (-1));;
    ret {| found := false; index := -1; value := value;
           out_array_size := len array;
           array_min := amin; array_max := amax |}
  else
    index <- lift (_binary_search array value);;
    amin <- lift (getitem array 0);;
    amax <- lift (getitem array (-1));;
    ret {| found := negb (index =? -1); index := index; value := value;
           out_array_size := len array;
           array_min := amin; array_max := amax |}.

(** Lines 109-112. *)
Definition get_array_source : M jval :=
  metadata <- load_array_metadata;;
  match metadata with
  | Some m =>
      if bool_decide (m = ∅) then ret (JStr "generated")
      else ret (default (JStr "unknown") (m !! "source"))
  | None => ret (JStr "generated")
  end.

(** Lines 114-135. *)
Definition reset_array (now : string)
    (size min_value' max_value' seed' : option Z) : M unit :=
  assign_if_truthy size set_array_size;;;
  assign_if_truthy min_value' set_min_value;;;
  assign_if_truthy max_value' set_max_value;;;
  assign_if_truthy seed' set_seed;;;
  array <- _generate_array size min_value' max_value' seed';;
  save_array array;;;
  s <- get_self;;
  save_array_metadata
    (list_to_map
       [("size", JInt (len array));
        ("min_value", JInt (py_or min_value' (min_value s)));
        ("max_value", JInt (py_or max_value' (max_value s)));
        ("seed", JInt (py_or seed' (seed s)));
        ("generated_at", JStr now);
        ("source", JStr "regenerated")]).

(** Lines 137-160; [today] is the reading of [date.today().isoformat()]. *)
Definition track_search (value : Z) (found : bool) (search_time : float)
    (today : string) (s : BinarySearchService) : BinarySearchService :=
  let st := _search_stats s in
  let times := search_times st ++ [search_time] in
  set_search_stats
    {| total_searches := total_searches st + 1;
       successful_searches :=
         if found then successful_searches st + 1
         else successful_searches st;
       failed_searches :=
         if found then failed_searches st else failed_searches st + 1;
       search_times := if len times >? 1000 then tail times else times;
       value_counts :=
         dict_set (value_counts st) value
                  (dict_get (value_counts st) value 0 + 1);
       daily_counts :=
         dict_set (daily_counts st) today
                  (dict_get (daily_counts st) today 0 + 1) |}
    s.

(** The dictionary [get_statistics] returns: a copy of the counters with
    three computed entries. *)
Record Statistics := {
  stats : Stats;
  average_search_time_ms : float;
  most_searched_value : option Z;
  searches_today : Z
}.

(** Lines 162-185. *)
Definition get_statistics (today : string) (s : BinarySearchService)
  : Statistics :=
  let st := _search_stats s in
  {| stats := st;
     average_search_time_ms :=
       match search_times st with
       | [] => float_of_int 0
       | _ :: _ =>
           float_div (float_sum (search_times st))
                     (float_of_int (len (search_times st)))
       end;
     most_searched_value :=
       match value_counts st with
       | [] => None
       | it :: rest => Some (fst (max_by_count it rest))
       end;
     searches_today := dict_get (daily_counts st) today 0 |}.
End Operations.

(** * Vocabulary of the properties *)

(** The array invariant: [array[i] <= array[i+1]] for all valid [i]. *)
Definition nondecreasing (arr : list Z) : Prop :=
  forall (i : nat) (x y : Z),
    arr !! i = Some x -> arr !! S i = Some y -> x <= y.

(** The check the routing layer reports as [is_sorted]. *)
Fixpoint is_sorted (arr : list Z) : bool :=
  match arr with
  | [] => true
  | x :: rest =>
      match rest with
      | [] => true
      | y :: _ => (x <=? y) && is_sorted rest
      end
  end.

(** The plain search of the specification: the binary search loop alone,
    reported as (found, index), with no boundary pre-check. *)
Definition plain_search (array : list Z) (value : Z) : result (bool * Z) :=
  match _binary_search array value with
  | Ok index => Ok (negb (index =? -1), index)
  | Raise e => Raise e
  end.

Section Vocabulary.
Context {prng : PRNG} {pyfloat : PyFloat}.

(** The world with the adapter's record replaced. *)
Definition with_db (d : RedisDatabase) (w : World) : World :=
  {| self := {| db := d; array_size := array_size (self w);
                min_value := min_value (self w);
                max_value := max_value (self w);
                seed := seed (self w);
                _search_stats := _search_stats (self w) |};
     random := random w |}.

(** The world once the adapter holds a client; the keys are untouched. *)
Definition connected (w : World) : World :=
  with_db {| client := true; kv_array := kv_array (db (self w));
             kv_metadata := kv_metadata (db (self w)) |} w.

(** The draws of the list comprehension, as a function of the generator
    state they start from. *)
Fixpoint draw (n : nat) (a b : Z) (g : rng_state) : list Z * rng_state :=
  match n with
  | O => ([], g)
  | S n' =>
      let (x, g1) := rng_randint a b g in
      let (xs, g2) := draw n' a b g1 in
      (x :: xs, g2)
  end.

(** The array [_generate_array] builds from effective parameters. *)
Definition generated (size min_val max_val seed' : Z) : list Z :=
  sorted (fst (draw (Z.to_nat size) min_val max_val (rng_seed seed'))).

(** The world after the four conditional assignments of [reset_array]. *)
Definition with_defaults (size min_value' max_value' seed' : option Z)
    (w : World) : World :=
  {| self := {| db := db (self w);
                array_size := py_or size (array_size (self w));
                min_value := py_or min_value' (min_value (self w));
                max_value := py_or max_value' (max_value (self w));
                seed := py_or seed' (seed (self w));
                _search_stats := _search_stats (self w) |};
     random := random w |}.

(** The metadata record [reset_array] writes. *)
Definition reset_metadata (now : string) (array : list Z)
    (emin emax eseed : Z) : gmap string jval :=
  list_to_map
    [("size", JInt (len array));
     ("min_value", JInt emin);
     ("max_value", JInt emax);
     ("seed", JInt eseed);
     ("generated_at", JStr now);
     ("source", JStr "regenerated")].

(** The metadata record [initialize_array] writes. *)
Definition initial_metadata (now : string) (array : list Z)
    (s : BinarySearchService) : gmap string jval :=
  list_to_map
    [("size", JInt (len array));
     ("min_value", JInt (min_value s));
     ("max_value", JInt (max_value s));
     ("seed", JInt (seed s));
     ("generated_at", JStr now);
     ("source", JStr "generated")].

(** One recording: the arguments of a [track_search] call, with the date
    it read. *)
Record Recording := {
  rec_value : Z;
  rec_found : bool;
  rec_time : float;
  rec_today : string
}.

Definition record (s : BinarySearchService) (r : Recording)
  : BinarySearchService :=
  track_search (rec_value r) (rec_found r) (rec_time r) (rec_today r) s.

(** A sequence of [track_search] calls, oldest first. *)
Definition record_all (rs : list Recording) (s : BinarySearchService)
  : BinarySearchService :=
  fold_left record rs s.

(** The arithmetic mean as the snapshot computes it, 0 on no sample. *)
Definition mean (xs : list float) : float :=
  match xs with
  | [] => float_of_int 0
  | _ :: _ => float_div (float_sum xs) (float_of_int (len xs))
  end.

(** The [k] most recent of the samples [xs], oldest first. *)
Definition most_recent (k : nat) (xs : list float) : list float :=
  drop (length xs - k) xs.

End Vocabulary.

(** ** Vocabulary of the further properties *)

(** [min(array)] and [max(array)] on a non-empty list, as the routing layer
    computes them; [None] stands for the empty list, which the caller
    guards against. *)
Definition py_min (arr : list Z) : option Z :=
  match arr with
  | [] => None
  | x :: rest => Some (fold_left Z.min rest x)
  end.

Definition py_max (arr : list Z) : option Z :=
  match arr with
  | [] => None
  | x :: rest => Some (fold_left Z.max rest x)
  end.

(** A parameter with an explicit [0] turned into an absent one. *)
Definition zero_as_absent (p : option Z) : option Z :=
  match p with
  | Some n => if n =? 0 then None else Some n
  | None => None
  end.

(** The documented contract of [random.randint]: a draw from [a, b] lies in
    [a, b]. *)
Definition randint_in_range (prng : PRNG) : Prop :=
  forall (a b : Z) (g : rng_state),
    a <= b -> a <= fst (rng_randint a b g) <= b.

Section FurtherVocabulary.
Context {pyfloat : PyFloat}.

(** How many of the recordings searched for [v], were made on [day], or
    found their value. *)
Definition searches_for (v : Z) (rs : list Recording) : Z :=
  len (filter (fun r => rec_value r = v) rs).

Definition searches_on (day : string) (rs : list Recording) : Z :=
  len (filter (fun r => rec_today r = day) rs).

Definition hits (rs : list Recording) : Z :=
  len (filter (fun r => rec_found r = true) rs).

Definition misses (rs : list Recording) : Z :=
  len (filter (fun r => rec_found r = false) rs).

End FurtherVocabulary.

(** ** The request and response models (models.py)

    Fields are prefixed, since several models share field names. *)

(** An optional field constrained by [ge] and [le]. *)
Definition within (lo hi : Z) (p : option Z) : Prop :=
  match p with
  | Some n => lo <= n <= hi
  | None => True
  end.

(** [SearchRequest]: [value] with [ge=1], [le=1000]. *)
Definition SearchRequest_valid (value : Z) : Prop := 1 <= value <= 1000.

(** [ResetRequest]: [new_size] in 10..1000, [min_value] in 0..10000,
    [max_value] in 1..10000, [seed] free; all optional. *)
Record ResetRequest := {
  req_new_size : option Z;
  req_min_value : option Z;
  req_max_value : option Z;
  req_seed : option Z
}.

Definition ResetRequest_valid (r : ResetRequest) : Prop :=
  within 10 1000 (req_new_size r) /\
  within 0 10000 (req_min_value r) /\
  within 1 10000 (req_max_value r).

(** The text of an [HTTPException]'s detail. A report of the model library
    about a response it rejects is kept as such, not as text. *)
Inductive Detail :=
| Message (text : string)
| Prefixed (prefix : string) (d : Detail)
| ValidationReport (model : string).

(** [str(e)] *)
Definition str_exn (e : exn) : Detail :=
  match e with
  | ValueError msg => Message msg
  | IndexError msg => Message msg
  end.

(** What a route handler ends with. *)
Inductive HTTP (A : Type) :=
| Returns (body : A)
| HTTPException (status_code : Z) (detail : Detail).
Arguments Returns {A} body.
Arguments HTTPException {A} status_code detail.

(** The status a client sees: 200 for a body. *)
Definition status_code_of {A : Type} (r : HTTP A) : Z :=
  match r with
  | Returns _ => 200
  | HTTPException status_code _ => status_code
  end.

(** [ArrayResponse]: [size] with [ge=0], [source] an optional string. *)
Record ArrayResponse := {
  arr_array : list Z;
  arr_size : Z;
  arr_min_value : option Z;
  arr_max_value : option Z;
  arr_is_sorted : option bool;
  arr_source : option string
}.

Definition ArrayResponse_valid (r : ArrayResponse) : bool :=
  0 <=? arr_size r.

Section RoutingLayer.
Context {prng : PRNG} {pyfloat : PyFloat}.

(** [SearchResponse]: [index] with [ge=-1], [array_size] with [ge=0]. *)
Record SearchResponse := {
  resp_found : bool;
  resp_index : Z;
  resp_value : Z;
  resp_array_size : Z;
  resp_array_min : option Z;
  resp_array_max : option Z;
  resp_search_time_ms : option float
}.

Definition SearchResponse_valid (r : SearchResponse) : bool :=
  (-1 <=? resp_index r) && (0 <=? resp_array_size r).

(** [StatsResponse]: the three counters with [ge=0]; the other entries of
    the statistics dictionary are not fields of the model. *)
Record StatsResponse := {
  stat_total_searches : Z;
  stat_successful_searches : Z;
  stat_failed_searches : Z;
  stat_average_search_time_ms : option float;
  stat_most_searched_value : option Z;
  stat_searches_today : option Z
}.

Definition StatsResponse_valid (r : StatsResponse) : bool :=
  (0 <=? stat_total_searches r) && (0 <=? stat_successful_searches r)
  && (0 <=? stat_failed_searches r).

(** ** The routing layer (main.py)

    A handler maps the state to its response and the state it leaves. *)
Definition Handler (A : Type) : Type := World -> HTTP A * World.

(** [startup_event], lines 57-61. *)
Definition startup_event (now : string) : M unit :=
  initialize_array now;;; ret tt.

(** [search_value], lines 111-141; [search_time] is the elapsed time the
    handler measured. A response the model rejects raises the model
    library's validation error, a [ValueError], inside the [try]. *)
Definition search_value (now today : string) (search_time : float)
    (request_value : Z) : Handler SearchResponse :=
  fun w =>
    match search now request_value w with
    | (Ok result, w1) =>
        let response :=
          {| resp_found := found result;
             resp_index := index result;
             resp_value := request_value;
             resp_array_size := out_array_size result;
             resp_array_min := Some (array_min result);
             resp_array_max := Some (array_max result);
             resp_search_time_ms := Some search_time |} in
        if SearchResponse_valid response then
          (Returns response,
           {| self := track_search request_value (found result) search_time
                        today (self w1);
              random := random w1 |})
        else (HTTPException 400 (ValidationReport "SearchResponse"), w1)
    | (Raise (ValueError msg), w1) => (HTTPException 400 (Message msg), w1)
    | (Raise e, w1) =>
        (HTTPException 500 (Prefixed "Search failed: " (str_exn e)), w1)
    end.

(** The route [get_array], lines 151-169. The source tag has to be a
    string for the response model to take it. *)
Definition get_array_route (now : string) : Handler ArrayResponse :=
  fun w =>
    match (array <- get_array now;;
           source <- get_array_source;;
           ret (array, source)) w with
    | (Ok (array, JStr tag), w1) =>
        let response :=
          {| arr_array := array;
             arr_size := len array;
             arr_min_value := py_min array;
             arr_max_value := py_max array;
             arr_is_sorted :=
               match array with
               | [] => None
               | _ :: _ => Some (is_sorted array)
               end;
             arr_source := Some tag |} in
        if ArrayResponse_valid response then (Returns response, w1)
        else
          (HTTPException 500
             (Prefixed "Failed to get array: "
                       (ValidationReport "ArrayResponse")), w1)
    | (Ok (array, JInt _), w1) =>
        (HTTPException 500
           (Prefixed "Failed to get array: "
                     (ValidationReport "ArrayResponse")), w1)
    | (Raise e, w1) =>
        (HTTPException 500 (Prefixed "Failed to get array: " (str_exn e)), w1)
    end.

(** The route [reset_array], lines 179-202; the body is the message. *)
Definition reset_array_route (now : string) (request : option ResetRequest)
  : Handler string :=
  fun w =>
    match
      match request with
      | Some r =>
          reset_array now (req_new_size r) (req_min_value r)
                      (req_max_value r) (req_seed r) w
      | None => reset_array now None None None None w
      end
    with
    | (Ok _, w1) => (Returns "Array reset successfully", w1)
    | (Raise (ValueError msg), w1) => (HTTPException 400 (Message msg), w1)
    | (Raise e, w1) =>
        (HTTPException 500 (Prefixed "Failed to reset array: " (str_exn e)),
         w1)
    end.

(** The route [get_statistics], lines 212-221. *)
Definition get_statistics_route (today : string) : Handler StatsResponse :=
  fun w =>
    let snapshot := get_statistics today (self w) in
    let response :=
      {| stat_total_searches := total_searches (stats snapshot);
         stat_successful_searches := successful_searches (stats snapshot);
         stat_failed_searches := failed_searches (stats snapshot);
         stat_average_search_time_ms :=
           Some (average_search_time_ms snapshot);
         stat_most_searched_value := most_searched_value snapshot;
         stat_searches_today := Some (searches_today snapshot) |} in
    if StatsResponse_valid response then (Returns response, w)
    else
      (HTTPException 500
         (Prefixed "Failed to get statistics: "
                   (ValidationReport "StatsResponse")), w).

(** *** The application: one request after another *)

(** A request as a handler receives it, with the clock readings the
    handler takes while it runs. *)
Inductive Request :=
| PostSearch (value : Z) (now today : string) (search_time : float)
| GetArray (now : string)
| PostReset (request : option ResetRequest) (now : string)
| GetStats (today : string).

(** The request passes the validation of its model. *)
Definition Request_valid (req : Request) : Prop :=
  match req with
  | PostSearch value _ _ _ => SearchRequest_valid value
  | PostReset (Some r) _ => ResetRequest_valid r
  | PostReset None _ | GetArray _ | GetStats _ => True
  end.

Inductive Body :=
| SearchBody (r : SearchResponse)
| ArrayBody (r : ArrayResponse)
| ResetBody (message : string)
| StatsBody (r : StatsResponse).

Definition with_body {A : Type} (f : A -> Body) (h : Handler A)
  : Handler Body :=
  fun w =>
    match h w with
    | (Returns body, w') => (Returns (f body), w')
    | (HTTPException status_code detail, w') =>
        (HTTPException status_code detail, w')
    end.

(** The routes of the application. *)
Definition handle (req : Request) : Handler Body :=
  match req with
  | PostSearch value now today search_time =>
      with_body SearchBody (search_value now today search_time value)
  | GetArray now => with_body ArrayBody (get_array_route now)
  | PostReset request now =>
      with_body ResetBody (reset_array_route now request)
  | GetStats today => with_body StatsBody (get_statistics_route today)
  end.

(** Requests served in order, each on the state the one before left. *)
Fixpoint serve (reqs : list Request) (w : World)
  : list (HTTP Body) * World :=
  match reqs with
  | [] => ([], w)
  | req :: rest =>
      let (resp, w1) := handle req w in
      let (resps, w2) := serve rest w1 in
      (resp :: resps, w2)
  end.

(** The state a started application is in: the store holds a non-empty
    sorted array, a stored source tag is a string, the default size is one
    the reset model admits, and the counters add up. *)
Definition Serving (w : World) : Prop :=
  (exists A, kv_array (db (self w)) = Some A /\ A <> [] /\ nondecreasing A)
  /\
  (forall md v,
      kv_metadata (db (self w)) = Some md -> md !! "source" = Some v ->
      exists tag, v = JStr tag) /\
  10 <= array_size (self w) <= 1000 /\
  0 <= successful_searches (_search_stats (self w)) /\
  0 <= failed_searches (_search_stats (self w)) /\
  total_searches (_search_stats (self w))
  = successful_searches (_search_stats (self w))
    + failed_searches (_search_stats (self w)).

(** An answer that is no server error: a body, or the 400 of the bounds
    check. *)
Definition no_server_error (resp : HTTP Body) : Prop :=
  match resp with
  | Returns _ => True
  | HTTPException status_code detail =>
      status_code = 400 /\
      detail = Message "min_value must be less than max_value"
  end.
End RoutingLayer.

(** Settles one direction of an equivalence between "the call ended this
    way" and a condition on the state, once the call has been run. *)
Ltac settle_direction :=
  let x := fresh "x" in
  let H := fresh "H" in
  first
    [ solve [intros [x H]; discriminate H]
    | solve [intros _; eexists; reflexivity]
    | solve [intros _; repeat split; first [reflexivity | lia]]
    | solve [intros _; first [left; reflexivity | right; lia]]
    | solve [intros H; exfalso; decompose [and or] H;
             first [discriminate | lia]] ].

(** ** Sample states *)

Definition empty_db : RedisDatabase :=
  {| client := false; kv_array := None; kv_metadata := None |}.

(** A service just constructed over an empty store. *)
Definition fresh_world : @World lcg_prng q_float :=
  {| self := init_service empty_db; random := 0 |}.

(** A store holding a sorted array and the metadata of a reset. *)
Definition loaded_db : RedisDatabase :=
  {| client := false;
     kv_array := Some [1; 3; 5; 7; 9];
     kv_metadata := Some {[ "source" := JStr "regenerated" ]} |}.

Definition loaded_world : @World lcg_prng q_float :=
  {| self := init_service loaded_db; random := 0 |}.

(** A store whose metadata key is gone while the array key is still there. *)
Definition array_only_db : RedisDatabase :=
  {| client := true; kv_array := Some [1; 2; 3]; kv_metadata := None |}.

Definition array_only_world : @World lcg_prng q_float :=
  {| self := init_service array_only_db; random := 0 |}.

(** The fresh service after [reset_array(min_value=50, max_value=10)],
    a call the bounds check rejects. *)
Definition after_failed_reset : @World lcg_prng q_float :=
  snd (reset_array "2026-01-01T00:00:00" None (Some 50) (Some 10) None
         fresh_world).

(** [n] recordings whose times are 1, 2, ..., [n] milliseconds. *)
Definition ramp (n : nat) : list (@Recording q_float) :=
  map (fun k => {| rec_value := 42; rec_found := true;
                   rec_time := inject_Z (Z.of_nat k);
                   rec_today := "2026-01-01" |})
      (seq 1 n).

(** The outcome of searching 7 in the loaded store, and the body of the
    array route on it. *)
Definition loaded_outcome : SearchOutcome :=
  {| found := true; index := 3; value := 7; out_array_size := 5;
     array_min := 1; array_max := 9 |}.

Definition loaded_array_response : ArrayResponse :=
  {| arr_array := [1; 3; 5; 7; 9]; arr_size := 5;
     arr_min_value := Some 1; arr_max_value := Some 9;
     arr_is_sorted := Some true; arr_source := Some "regenerated" |}.

(** A search, a reset the bounds check rejects, a reset it accepts, and
    the two read-only routes. *)
Definition sample_requests : list (@Request q_float) :=
  [ PostSearch 7 "2026-01-01T00:00:00" "2026-01-01" (1 # 2);
    PostReset (Some {| req_new_size := None; req_min_value := Some 50;
                       req_max_value := Some 10; req_seed := None |})
              "2026-01-01T00:00:01";
    PostReset (Some {| req_new_size := Some 10; req_min_value := Some 1;
                       req_max_value := Some 10; req_seed := Some 1 |})
              "2026-01-01T00:00:02";
    GetArray "2026-01-01T00:00:03";
    GetStats "2026-01-01" ].

(** Three searches on one day: 5, then 9 twice. *)
Definition three_searches : list (@Recording q_float) :=
  [ {| rec_value := 5; rec_found := true; rec_time := 1 # 2;
       rec_today := "2026-01-01" |};
    {| rec_value := 9; rec_found := true; rec_time := 1 # 4;
       rec_today := "2026-01-01" |};
    {| rec_value := 9; rec_found := true; rec_time := 1 # 4;
       rec_today := "2026-01-01" |} ].

(** * Properties *)

(** ** Sortedness *)

Lemma is_sorted_nondecreasing (arr : list Z) :
  is_sorted arr = true -> nondecreasing arr.
Proof.
  induction arr as [|x [|y rest] IH]; intros Hs i a b Ha Hb.
  - discriminate.
  - destruct i; discriminate.
  - cbn [is_sorted] in Hs. apply andb_true_iff in Hs as [Hxy Hrest].
    destruct i as [|i]; simpl in Ha, Hb.
    + injection Ha as <-. injection Hb as <-. lia.
    + exact (IH Hrest i a b Ha Hb).
Qed.

Lemma nondecreasing_tail (x : Z) (arr : list Z) :
  nondecreasing (x :: arr) -> nondecreasing arr.
Proof. intros H i a b Ha Hb. exact (H (S i) a b Ha Hb). Qed.

Lemma Sorted_nondecreasing (arr : list Z) :
  Sorted Z.le arr -> nondecreasing arr.
Proof.
  induction 1 as [|x arr Hs IH Hhd]; intros i a b Ha Hb.
  - discriminate.
  - destruct i as [|i]; simpl in Ha, Hb.
    + injection Ha as <-. destruct Hhd as [|y rest Hxy]; [discriminate|].
      simpl in Hb. injection Hb as <-. exact Hxy.
    + exact (IH i a b Ha Hb).
Qed.

(** Adjacent order gives order between any two positions. *)
Lemma nondecreasing_le (arr : list Z) :
  nondecreasing arr ->
  forall (i j : nat) (x y : Z),
    (i <= j)%nat -> arr !! i = Some x -> arr !! j = Some y -> x <= y.
Proof.
  intros Hnd i j x y Hij Hi. revert y.
  induction Hij as [|j Hij IH]; intros y Hj.
  - rewrite Hi in Hj. injection Hj as <-. lia.
  - destruct (arr !! j) as [z|] eqn:Hz.
    + specialize (IH z eq_refl). pose proof (Hnd j z y Hz Hj). lia.
    + apply lookup_ge_None in Hz. apply lookup_lt_Some in Hj. lia.
Qed.

(** ** List indexing *)

Lemma getitem_in_range (arr : list Z) (i : Z) :
  0 <= i < len arr ->
  exists x, getitem arr i = Ok x /\ arr !! Z.to_nat i = Some x.
Proof.
  intros Hi. unfold getitem, len in *.
  destruct (i <? 0) eqn:Hneg; [apply Z.ltb_lt in Hneg; lia|].
  destruct (0 <=? i) eqn:H0; [|apply Z.leb_gt in H0; lia].
  destruct (i <? Z.of_nat (length arr)) eqn:H1; [|apply Z.ltb_ge in H1; lia].
  simpl. destruct (arr !! Z.to_nat i) as [x|] eqn:Hx.
  - exists x. split; reflexivity.
  - apply lookup_ge_None in Hx. lia.
Qed.

Lemma getitem_first (x : Z) (rest : list Z) : getitem (x :: rest) 0 = Ok x.
Proof.
  destruct (getitem_in_range (x :: rest) 0) as [y [Hy Hl]].
  - unfold len. simpl length. lia.
  - simpl in Hl. congruence.
Qed.

Lemma getitem_last (arr : list Z) :
  arr <> [] ->
  exists y, getitem arr (-1) = Ok y /\ arr !! (length arr - 1)%nat = Some y.
Proof.
  intros Hne. unfold getitem, len.
  assert (0 < Z.of_nat (length arr)) by (destruct arr; [congruence|simpl; lia]).
  change (-1 <? 0) with true. cbv iota.
  destruct (0 <=? -1 + Z.of_nat (length arr)) eqn:H0;
    [|apply Z.leb_gt in H0; lia].
  destruct (-1 + Z.of_nat (length arr) <? Z.of_nat (length arr)) eqn:H1;
    [|apply Z.ltb_ge in H1; lia].
  simpl.
  replace (Z.to_nat (-1 + Z.of_nat (length arr))) with (length arr - 1)%nat
    by lia.
  destruct (arr !! (length arr - 1)%nat) as [y|] eqn:Hy.
  - exists y. split; reflexivity.
  - apply lookup_ge_None in Hy. lia.
Qed.

(** ** The binary search loop *)

Lemma _binary_search_loop_unfold_body (arr : list Z) (target lo hi : Z) :
  _binary_search_loop arr target lo hi =
  if lo <=? hi then
    match getitem arr ((lo + hi) / 2) with
    | Raise e => Raise e
    | Ok x =>
        if x =? target then Ok ((lo + hi) / 2)
        else if x <? target
             then _binary_search_loop arr target ((lo + hi) / 2 + 1) hi
             else _binary_search_loop arr target lo ((lo + hi) / 2 - 1)
    end
  else Ok (-1).
Proof.
  funelim (_binary_search_loop arr target lo hi); clear Heqcall;
    repeat match goal with
           | H : sigmaI _ _ _ = _ |- _ => clear H
           end;
    repeat match goal with
           | H : (lo <=? hi) = _ |- _ => rewrite H; clear H
           | H : getitem _ _ = _ |- _ => rewrite H; clear H
           end; reflexivity.
Qed.

Lemma mid_bounds (lo hi : Z) : lo <= hi -> lo <= (lo + hi) / 2 <= hi.
Proof.
  intros H.
  split; [apply Z.div_le_lower_bound | apply Z.div_le_upper_bound]; lia.
Qed.

(** The loop always returns, on any list: either [-1] or a position of the
    interval that holds the target. No index it reads is out of range. *)
Lemma _binary_search_loop_returns (arr : list Z) (target : Z) :
  forall (k : nat) (lo hi : Z),
    (Z.to_nat (hi - lo + 1) <= k)%nat -> 0 <= lo -> hi < len arr ->
    exists i, _binary_search_loop arr target lo hi = Ok i /\
      (i = -1 \/ (lo <= i <= hi /\ arr !! Z.to_nat i = Some target)).
Proof.
  induction k as [|k IH]; intros lo hi Hk Hlo Hhi;
    rewrite _binary_search_loop_unfold_body.
  - destruct (lo <=? hi) eqn:Hle; [apply Z.leb_le in Hle; lia|].
    exists (-1). split; [reflexivity | left; reflexivity].
  - destruct (lo <=? hi) eqn:Hle.
    2: { exists (-1). split; [reflexivity | left; reflexivity]. }
    apply Z.leb_le in Hle. pose proof (mid_bounds lo hi Hle) as Hmid.
    destruct (getitem_in_range arr ((lo + hi) / 2)) as [x [Hx Hl]]; [lia|].
    rewrite Hx.
    destruct (x =? target) eqn:Heq.
    + apply Z.eqb_eq in Heq. subst x. exists ((lo + hi) / 2).
      split; [reflexivity|]. right. split; [lia | exact Hl].
    + destruct (x <? target).
      * destruct (IH ((lo + hi) / 2 + 1) hi) as [i [Hi Hprop]]; [lia..|].
        exists i. split; [exact Hi|]. destruct Hprop as [->|[Hr Hv]];
          [left; reflexivity | right; split; [lia | exact Hv]].
      * destruct (IH lo ((lo + hi) / 2 - 1)) as [i [Hi Hprop]]; [lia..|].
        exists i. split; [exact Hi|]. destruct Hprop as [->|[Hr Hv]];
          [left; reflexivity | right; split; [lia | exact Hv]].
Qed.

(** On a sorted list, [-1] means the target is at no position of the
    interval. *)
Lemma _binary_search_loop_complete (arr : list Z) (target : Z) :
  nondecreasing arr ->
  forall (k : nat) (lo hi : Z),
    (Z.to_nat (hi - lo + 1) <= k)%nat -> 0 <= lo -> hi < len arr ->
    _binary_search_loop arr target lo hi = Ok (-1) ->
    forall j : nat, lo <= Z.of_nat j <= hi -> arr !! j <> Some target.
Proof.
  intros Hnd. induction k as [|k IH]; intros lo hi Hk Hlo Hhi Hres j Hj.
  - lia.
  - rewrite _binary_search_loop_unfold_body in Hres.
    destruct (lo <=? hi) eqn:Hle; [|apply Z.leb_gt in Hle; lia].
    apply Z.leb_le in Hle. pose proof (mid_bounds lo hi Hle) as Hmid.
    destruct (getitem_in_range arr ((lo + hi) / 2)) as [x [Hx Hl]]; [lia|].
    rewrite Hx in Hres.
    destruct (x =? target) eqn:Heq; [injection Hres as Hres; lia|].
    apply Z.eqb_neq in Heq. intros Hjt.
    destruct (x <? target) eqn:Hlt.
    + apply Z.ltb_lt in Hlt.
      destruct (Z_lt_le_dec ((lo + hi) / 2) (Z.of_nat j)) as [Hgt|Hle'].
      * apply (IH ((lo + hi) / 2 + 1) hi ltac:(lia) ltac:(lia) Hhi Hres j);
          [lia | exact Hjt].
      * pose proof (nondecreasing_le arr Hnd j (Z.to_nat ((lo + hi) / 2))
                      target x ltac:(lia) Hjt Hl). lia.
    + apply Z.ltb_ge in Hlt.
      destruct (Z_lt_le_dec (Z.of_nat j) ((lo + hi) / 2)) as [Hgt|Hle'].
      * apply (IH lo ((lo + hi) / 2 - 1) ltac:(lia) Hlo ltac:(lia) Hres j);
          [lia | exact Hjt].
      * pose proof (nondecreasing_le arr Hnd (Z.to_nat ((lo + hi) / 2)) j
                      x target ltac:(lia) Hl Hjt). lia.
Qed.

(** [_binary_search] returns on every list, with [-1] or a valid position
    of the target. *)
Lemma _binary_search_returns (arr : list Z) (target : Z) :
  exists i, _binary_search arr target = Ok i /\
    (i = -1 \/ (0 <= i < len arr /\ arr !! Z.to_nat i = Some target)).
Proof.
  unfold _binary_search.
  destruct (_binary_search_loop_returns arr target
              (Z.to_nat (Z.of_nat (length arr) - 1 - 0 + 1)) 0
              (Z.of_nat (length arr) - 1)) as [i [Hi Hp]];
    [lia | lia | unfold len; lia |].
  exists i. split; [exact Hi|].
  destruct Hp as [->|[Hr Hv]]; [left; reflexivity|].
  right. split; [unfold len; lia | exact Hv].
Qed.

Lemma _binary_search_complete (arr : list Z) (target : Z) :
  nondecreasing arr ->
  _binary_search arr target = Ok (-1) -> target ∉ arr.
Proof.
  intros Hnd Hres Hin. apply list_elem_of_lookup in Hin as [j Hj].
  pose proof (lookup_lt_Some _ _ _ Hj) as Hlt.
  refine (_binary_search_loop_complete arr target Hnd
            (Z.to_nat (Z.of_nat (length arr) - 1 - 0 + 1)) 0
            (Z.of_nat (length arr) - 1) _ _ _ Hres j _ Hj);
    unfold len; lia.
Qed.

(** With duplicates the position found is the one the midpoints reach,
    not the first occurrence. *)
Example _binary_search_runs :
  _binary_search [1; 3; 5; 7; 9] 7 = Ok 3 /\
  _binary_search [1; 3; 5; 7; 9] 4 = Ok (-1) /\
  _binary_search [2; 2; 2; 2; 2] 2 = Ok 2 /\
  _binary_search [] 2 = Ok (-1).
Proof. repeat split. Qed.

(** ** Running the adapter *)

Section AdapterFacts.
Context {prng : PRNG} {pyfloat : PyFloat}.

Lemma ensure_client_run (w : World) :
  ensure_client w = (Ok tt, connected w).
Proof.
  destruct w as [[[c a m] sz mn mx sd st] g].
  destruct c; reflexivity.
Qed.

Lemma load_array_run (w : World) :
  load_array w = (Ok (kv_array (db (self w))), connected w).
Proof.
  unfold load_array, bind. rewrite ensure_client_run. reflexivity.
Qed.

Lemma load_array_metadata_run (w : World) :
  load_array_metadata w = (Ok (kv_metadata (db (self w))), connected w).
Proof.
  unfold load_array_metadata, bind. rewrite ensure_client_run. reflexivity.
Qed.

Lemma save_array_run (array : list Z) (w : World) :
  save_array array w =
  (Ok tt, with_db {| client := true; kv_array := Some array;
                     kv_metadata := kv_metadata (db (self w)) |} w).
Proof.
  unfold save_array, bind. rewrite ensure_client_run. reflexivity.
Qed.

Lemma save_array_metadata_run (md : gmap string jval) (w : World) :
  save_array_metadata md w =
  (Ok tt, with_db {| client := true; kv_array := kv_array (db (self w));
                     kv_metadata := Some md |} w).
Proof.
  unfold save_array_metadata, bind. rewrite ensure_client_run. reflexivity.
Qed.

Lemma connected_idem (w : World) : connected (connected w) = connected w.
Proof. reflexivity. Qed.

(** With a non-empty array in the store, [initialize_array] and
    [get_array] only load it. *)
Lemma initialize_array_loaded (now : string) (w : World) (x : Z)
    (rest : list Z) :
  kv_array (db (self w)) = Some (x :: rest) ->
  initialize_array now w = (Ok (x :: rest), connected w).
Proof.
  intros H. unfold initialize_array, bind.
  rewrite load_array_run, H. reflexivity.
Qed.

Lemma get_array_loaded (now : string) (w : World) (x : Z)
    (rest : list Z) :
  kv_array (db (self w)) = Some (x :: rest) ->
  get_array now w = (Ok (x :: rest), connected w).
Proof.
  intros H. unfold get_array, bind.
  rewrite load_array_run, H. reflexivity.
Qed.

(** What [search] does once [get_array] has handed it a non-empty array:
    the two bounds are read, the pre-check decides, and otherwise the
    result of [_binary_search] is reported. *)
Lemma search_after_get_array (now : string) (t : Z) (w w' : World)
    (A : list Z) :
  get_array now w = (Ok A, w') -> A <> [] ->
  exists first last i,
    A !! 0%nat = Some first /\
    A !! (length A - 1)%nat = Some last /\
    _binary_search A t = Ok i /\
    search now t w =
    (Ok {| found := if (t <? first) || (t >? last) then false
                    else negb (i =? -1);
           index := if (t <? first) || (t >? last) then -1 else i;
           value := t;
           out_array_size := len A;
           array_min := first;
           array_max := last |}, w').
Proof.
  intros Hget Hne.
  destruct A as [|x rest]; [congruence|].
  destruct (getitem_last (x :: rest) Hne) as [y [Hy Hlast]].
  destruct (_binary_search_returns (x :: rest) t) as [i [Hi _]].
  exists x, y, i. repeat split; [exact Hlast | exact Hi |].
  unfold search, bind, lift, ret. rewrite Hget, getitem_first.
  destruct (t <? x) eqn:Hlt; cbv beta iota.
  - rewrite Hy. reflexivity.
  - rewrite Hy. destruct (t >? y) eqn:Hgt; cbv beta iota.
    + reflexivity.
    + rewrite Hi. reflexivity.
Qed.
End AdapterFacts.

(** ** Search *)

(** A target below the first or above the last element of a sorted list
    occurs nowhere in it. *)
Lemma outside_bounds_not_elem (A : list Z) (t first last : Z) :
  nondecreasing A ->
  A !! 0%nat = Some first -> A !! (length A - 1)%nat = Some last ->
  (t <? first) || (t >? last) = true -> t ∉ A.
Proof.
  intros Hnd Hf Hl Hout Hin.
  apply list_elem_of_lookup in Hin as [j Hj].
  pose proof (lookup_lt_Some _ _ _ Hj) as Hlt.
  pose proof (nondecreasing_le A Hnd 0 j first t ltac:(lia) Hf Hj).
  pose proof (nondecreasing_le A Hnd j (length A - 1) t last ltac:(lia) Hj Hl).
  apply orb_true_iff in Hout as [H1|H1]; lia.
Qed.

Section SearchProperties.
Context {prng : PRNG} {pyfloat : PyFloat}.

(** Claim C1. For a store holding a non-empty array [A] sorted ascending
    and every target [t], [search] returns an outcome with [found] true
    exactly when [t] occurs in [A]; when found, the index lies in
    [0, len A) and [A[index]] is [t]; when [t] does not occur, the index
    is [-1]. *)
Theorem search_found_iff_occurs (now : string) (w : World) (A : list Z)
    (t : Z) :
  kv_array (db (self w)) = Some A -> A <> [] -> nondecreasing A ->
  exists out w',
    search now t w = (Ok out, w') /\
    (found out = true <-> t ∈ A) /\
    (found out = true ->
     0 <= index out < len A /\ getitem A (index out) = Ok t) /\
    (t ∉ A -> found out = false /\ index out = -1).
Proof.
  intros Hst Hne Hnd.
  assert (Hget : get_array now w = (Ok A, connected w)).
  { destruct A as [|x rest]; [congruence|]. apply get_array_loaded, Hst. }
  destruct (search_after_get_array now t w _ A Hget Hne)
    as (first & last & i & Hf & Hl & Hi & Hs).
  eexists _, _. split; [exact Hs|]. cbn [found index].
  destruct ((t <? first) || (t >? last)) eqn:Hout.
  - pose proof (outside_bounds_not_elem A t first last Hnd Hf Hl Hout).
    repeat split; try congruence; try tauto.
  - destruct (_binary_search_returns A t) as [i' [Hi' Hp]].
    assert (i' = i) by congruence. subst i'.
    destruct Hp as [->|[Hr Hv]].
    + pose proof (_binary_search_complete A t Hnd Hi) as Hnot.
      change (negb (-1 =? -1)) with false.
      repeat split; try congruence; try tauto.
    + assert (Hin : t ∈ A) by (eapply list_elem_of_lookup_2; exact Hv).
      assert (Hnz : (i =? -1) = false) by (apply Z.eqb_neq; lia).
      rewrite Hnz. change (negb false) with true.
      destruct (getitem_in_range A i Hr) as [y [Hy Hy']].
      repeat split; try tauto; try lia; try congruence.
Qed.

(** Claim C7. For a store holding a non-empty sorted array [A] and every
    target [t], [search] with its boundary pre-check returns the same
    found flag and index as the binary search loop run alone. *)
Theorem search_precheck_is_optimization (now : string) (w : World)
    (A : list Z) (t : Z) :
  kv_array (db (self w)) = Some A -> A <> [] -> nondecreasing A ->
  exists out w',
    search now t w = (Ok out, w') /\
    plain_search A t = Ok (found out, index out).
Proof.
  intros Hst Hne Hnd.
  assert (Hget : get_array now w = (Ok A, connected w)).
  { destruct A as [|x rest]; [congruence|]. apply get_array_loaded, Hst. }
  destruct (search_after_get_array now t w _ A Hget Hne)
    as (first & last & i & Hf & Hl & Hi & Hs).
  eexists _, _. split; [exact Hs|]. cbn [found index].
  unfold plain_search. rewrite Hi.
  destruct ((t <? first) || (t >? last)) eqn:Hout; [|reflexivity].
  pose proof (outside_bounds_not_elem A t first last Hnd Hf Hl Hout) as Hnot.
  destruct (_binary_search_returns A t) as [i' [Hi' Hp]].
  assert (i' = i) by congruence. subst i'.
  destruct Hp as [->|[Hr Hv]]; [reflexivity|].
  exfalso. apply Hnot. eapply list_elem_of_lookup_2. exact Hv.
Qed.
End SearchProperties.

(** ** Generation *)

Lemma py_or_idem (p : option Z) (d : Z) : py_or p (py_or p d) = py_or p d.
Proof. destruct p as [n|]; simpl; [destruct (n =? 0)|]; reflexivity. Qed.

Lemma sorted_nondecreasing (l : list Z) : nondecreasing (sorted l).
Proof.
  apply Sorted_nondecreasing. unfold sorted.
  apply Sorted_merge_sort; apply _.
Qed.

Lemma sorted_length (l : list Z) : length (sorted l) = length l.
Proof. unfold sorted. apply Permutation_length, merge_sort_Permutation. Qed.

Section GenerationFacts.
Context {prng : PRNG} {pyfloat : PyFloat}.

Lemma draw_length (n : nat) (a b : Z) (g : rng_state) :
  length (fst (draw n a b g)) = n.
Proof.
  revert g. induction n as [|n IH]; intros g; simpl; [reflexivity|].
  destruct (rng_randint a b g) as [x g1].
  specialize (IH g1). destruct (draw n a b g1) as [xs g2].
  simpl in *. congruence.
Qed.

Lemma randints_run (n : nat) (a b : Z) (w : World) :
  randints n a b w =
  (Ok (fst (draw n a b (random w))),
   {| self := self w; random := snd (draw n a b (random w)) |}).
Proof.
  revert w. induction n as [|n IH]; intros w.
  - destruct w. reflexivity.
  - cbn [randints draw]. unfold bind, random_randint.
    destruct (rng_randint a b (random w)) as [x g1].
    rewrite IH. cbn [self random].
    destruct (draw n a b g1) as [xs g2]. reflexivity.
Qed.

Lemma _generate_array_run (size min_val max_val seed' : option Z)
    (w : World) :
  _generate_array size min_val max_val seed' w =
  let esize := py_or size (array_size (self w)) in
  let emin := py_or min_val (min_value (self w)) in
  let emax := py_or max_val (max_value (self w)) in
  let eseed := py_or seed' (seed (self w)) in
  if emin >=? emax
  then (Raise (ValueError "min_value must be less than max_value"), w)
  else (Ok (generated esize emin emax eseed),
        {| self := self w;
           random := snd (draw (Z.to_nat esize) emin emax
                               (rng_seed eseed)) |}).
Proof.
  unfold _generate_array, bind, get_self. cbv zeta.
  destruct (py_or min_val (min_value (self w)) >=?
            py_or max_val (max_value (self w))); [reflexivity|].
  unfold random_seed. rewrite randints_run. reflexivity.
Qed.

Lemma generated_length (size min_val max_val seed' : Z) :
  length (generated size min_val max_val seed') = Z.to_nat size.
Proof. unfold generated. rewrite sorted_length. apply draw_length. Qed.

Lemma assign_defaults_then {B : Type}
    (size min_value' max_value' seed' : option Z) (k : M B) (w : World) :
  (assign_if_truthy size set_array_size;;;
   assign_if_truthy min_value' set_min_value;;;
   assign_if_truthy max_value' set_max_value;;;
   assign_if_truthy seed' set_seed;;;
   k) w =
  k (with_defaults size min_value' max_value' seed' w).
Proof.
  destruct w as [[d sz mn mx sd st] g].
  unfold with_defaults, assign_if_truthy, bind, py_or.
  destruct size as [n1|]; [destruct (n1 =? 0)|];
    destruct min_value' as [n2|]; try destruct (n2 =? 0);
    destruct max_value' as [n3|]; try destruct (n3 =? 0);
    destruct seed' as [n4|]; try destruct (n4 =? 0); reflexivity.
Qed.

(** [reset_array], run: the defaults are assigned first; then either the
    bounds check raises, or the array is generated and both keys are
    written. *)
Lemma reset_array_run (now : string)
    (size min_value' max_value' seed' : option Z) (w : World) :
  reset_array now size min_value' max_value' seed' w =
  let w1 := with_defaults size min_value' max_value' seed' w in
  let esize := array_size (self w1) in
  let emin := min_value (self w1) in
  let emax := max_value (self w1) in
  let eseed := seed (self w1) in
  if emin >=? emax
  then (Raise (ValueError "min_value must be less than max_value"), w1)
  else
    (Ok tt,
     with_db {| client := true;
                kv_array := Some (generated esize emin emax eseed);
                kv_metadata :=
                  Some (reset_metadata now
                          (generated esize emin emax eseed)
                          emin emax eseed) |}
             {| self := self w1;
                random := snd (draw (Z.to_nat esize) emin emax
                                    (rng_seed eseed)) |}).
Proof.
  unfold reset_array. rewrite assign_defaults_then.
  unfold bind at 1. rewrite _generate_array_run.
  cbn [with_defaults self array_size min_value max_value seed].
  rewrite !py_or_idem. cbv zeta.
  destruct (py_or min_value' (min_value (self w)) >=?
            py_or max_value' (max_value (self w))); [reflexivity|].
  unfold bind. rewrite save_array_run. unfold get_self.
  rewrite save_array_metadata_run.
  cbn [with_db self db array_size min_value max_value seed
       kv_array kv_metadata random _search_stats].
  rewrite !py_or_idem. reflexivity.
Qed.
End GenerationFacts.

Section GenerationProperties.
Context {prng : PRNG} {pyfloat : PyFloat}.

(** Claim C3. Generation, called directly or through reset, raises the
    validation error (the code's [ValueError]) exactly when the effective
    minimum (the supplied parameter, or the stored default when it is
    absent or falsy) is greater than or equal to the effective maximum,
    and returns otherwise; generate(size=10, min=50, max=10) raises it. *)
Theorem generation_raises_iff_min_ge_max (now : string)
    (size min_val max_val seed' : option Z) (w : World) :
  let emin := py_or min_val (min_value (self w)) in
  let emax := py_or max_val (max_value (self w)) in
  ((exists msg, fst (_generate_array size min_val max_val seed' w)
                = Raise (ValueError msg)) <-> emin >= emax) /\
  ((exists arr, fst (_generate_array size min_val max_val seed' w)
                = Ok arr) <-> emin < emax) /\
  ((exists msg, fst (reset_array now size min_val max_val seed' w)
                = Raise (ValueError msg)) <-> emin >= emax) /\
  (fst (reset_array now size min_val max_val seed' w) = Ok tt
   <-> emin < emax) /\
  (exists msg, fst (_generate_array (Some 10) (Some 50) (Some 10) None w)
               = Raise (ValueError msg)).
Proof.
  cbv zeta. rewrite reset_array_run, !_generate_array_run. cbv zeta.
  cbn [with_defaults self min_value max_value].
  change (py_or (Some 50) (min_value (self w))) with 50.
  change (py_or (Some 10) (max_value (self w))) with 10.
  change (50 >=? 10) with true. cbv iota.
  destruct (py_or min_val (min_value (self w)) >=?
            py_or max_val (max_value (self w))) eqn:Hge;
    [apply Z.geb_ge in Hge | rewrite Z.geb_leb in Hge; apply Z.leb_gt in Hge];
    cbn [fst]; repeat split;
    try (intros [x Hx]; first [discriminate Hx | lia]);
    try (intros Hx; first [discriminate Hx | lia]); eauto.
Qed.

(** Claim C4. Every successful generate or reset call (one whose
    effective bounds satisfy min < max) yields an array sorted
    non-decreasing: [array[i] <= array[i+1]] for all valid [i]; reset
    stores exactly that array. *)
Theorem generated_array_nondecreasing (now : string)
    (size min_val max_val seed' : option Z) (w : World) :
  py_or min_val (min_value (self w)) < py_or max_val (max_value (self w)) ->
  exists arr,
    nondecreasing arr /\
    (exists w', _generate_array size min_val max_val seed' w = (Ok arr, w')) /\
    (exists w', reset_array now size min_val max_val seed' w = (Ok tt, w') /\
                kv_array (db (self w')) = Some arr).
Proof.
  intros Hlt.
  rewrite reset_array_run, _generate_array_run. cbv zeta.
  cbn [with_defaults self array_size min_value max_value seed].
  destruct (py_or min_val (min_value (self w)) >=?
            py_or max_val (max_value (self w))) eqn:Hge;
    [apply Z.geb_ge in Hge; lia|].
  eexists. split; [apply sorted_nondecreasing|].
  split; eexists; [reflexivity|]. split; reflexivity.
Qed.

(** Claim C6. Generation is deterministic: with the same parameters and
    the same stored defaults, the array does not depend on the state the
    random generator was left in, so a second call repeats the first;
    with all four parameters given, as in
    generate(size=50, min=1, max=100, seed=7), it depends on nothing
    else. *)
Theorem generation_deterministic
    (size min_val max_val seed' : option Z) (w w2 : World)
    (g : rng_state) :
  fst (_generate_array size min_val max_val seed' w) =
  fst (_generate_array size min_val max_val seed'
         {| self := self w; random := g |}) /\
  fst (_generate_array size min_val max_val seed'
         (snd (_generate_array size min_val max_val seed' w))) =
  fst (_generate_array size min_val max_val seed' w) /\
  fst (_generate_array (Some 50) (Some 1) (Some 100) (Some 7) w) =
  fst (_generate_array (Some 50) (Some 1) (Some 100) (Some 7) w2).
Proof.
  rewrite !_generate_array_run. cbv zeta. cbn [self].
  repeat split.
  - destruct (_ >=? _); reflexivity.
  - destruct (py_or min_val (min_value (self w)) >=?
              py_or max_val (max_value (self w))) eqn:Hge; cbn [snd fst self].
    + rewrite Hge. reflexivity.
    + rewrite Hge. reflexivity.
Qed.

(** Claim C10. A reset whose effective bounds satisfy min >= max raises
    the validation error and writes nothing to the store, but the stored
    defaults have by then taken every truthy supplied parameter, and the
    failed call leaves them so. *)
Theorem reset_failure_keeps_assigned_defaults (now : string)
    (size min_value' max_value' seed' : option Z) (w : World) :
  py_or min_value' (min_value (self w)) >=
  py_or max_value' (max_value (self w)) ->
  exists w',
    reset_array now size min_value' max_value' seed' w =
    (Raise (ValueError "min_value must be less than max_value"), w') /\
    db (self w') = db (self w) /\
    array_size (self w') = py_or size (array_size (self w)) /\
    min_value (self w') = py_or min_value' (min_value (self w)) /\
    max_value (self w') = py_or max_value' (max_value (self w)) /\
    seed (self w') = py_or seed' (seed (self w)) /\
    _search_stats (self w') = _search_stats (self w) /\
    random w' = random w.
Proof.
  intros Hge. rewrite reset_array_run. cbv zeta.
  cbn [with_defaults self array_size min_value max_value seed].
  apply Z.geb_ge in Hge. rewrite Hge.
  eexists. split; [reflexivity|]. repeat split.
Qed.
End GenerationProperties.

(** ** Lazy initialization *)

Section InitializationFacts.
Context {prng : PRNG} {pyfloat : PyFloat}.

(** [initialize_array] on a store with no array or an empty one: the
    array is generated from the stored defaults and both keys are
    written, unless the defaults fail the bounds check. *)
Lemma initialize_array_generates (now : string) (w : World) :
  not_array (kv_array (db (self w))) = true ->
  initialize_array now w =
  let s := self w in
  let arr := generated (array_size s) (min_value s) (max_value s) (seed s) in
  if min_value s >=? max_value s
  then (Raise (ValueError "min_value must be less than max_value"),
        connected w)
  else
    (Ok arr,
     with_db {| client := true; kv_array := Some arr;
                kv_metadata := Some (initial_metadata now arr s) |}
             {| self := s;
                random := snd (draw (Z.to_nat (array_size s)) (min_value s)
                                    (max_value s) (rng_seed (seed s))) |}).
Proof.
  intros Hnot. unfold initialize_array. unfold bind at 1.
  rewrite load_array_run.
  assert (Hgen :
    forall k : M (list Z),
      match kv_array (db (self w)) with
      | Some (x :: rest) => ret (x :: rest)
      | _ => k
      end = k).
  { intros k. destruct (kv_array (db (self w))) as [[|x rest]|];
      [reflexivity | discriminate | reflexivity]. }
  rewrite Hgen. unfold bind at 1. rewrite _generate_array_run. cbv zeta.
  cbn [connected with_db self array_size min_value max_value seed py_or].
  destruct (min_value (self w) >=? max_value (self w)); [reflexivity|].
  unfold bind. rewrite save_array_run. unfold get_self.
  rewrite save_array_metadata_run. reflexivity.
Qed.

Lemma get_array_generates (now : string) (w : World) :
  not_array (kv_array (db (self w))) = true ->
  get_array now w = initialize_array now (connected w).
Proof.
  intros Hnot. unfold get_array, bind. rewrite load_array_run.
  destruct (kv_array (db (self w))) as [[|x rest]|];
    [reflexivity | discriminate | reflexivity].
Qed.
End InitializationFacts.

Section InitializationProperties.
Context {prng : PRNG} {pyfloat : PyFloat}.

(** Claim C8. With a non-empty array in the store, two calls of
    [initialize_array] in a row return that same array; neither changes
    the stored array or metadata (so the recorded source tag stays), and
    the second call changes nothing at all. *)
Theorem initialize_array_idempotent (now1 now2 : string) (w : World)
    (A : list Z) :
  kv_array (db (self w)) = Some A -> A <> [] ->
  exists w1 w2,
    initialize_array now1 w = (Ok A, w1) /\
    initialize_array now2 w1 = (Ok A, w2) /\
    kv_array (db (self w1)) = Some A /\
    kv_array (db (self w2)) = Some A /\
    kv_metadata (db (self w1)) = kv_metadata (db (self w)) /\
    kv_metadata (db (self w2)) = kv_metadata (db (self w)) /\
    fst (get_array_source w1) = fst (get_array_source w) /\
    fst (get_array_source w2) = fst (get_array_source w) /\
    w2 = w1.
Proof.
  intros Hst Hne. destruct A as [|x rest]; [congruence|].
  exists (connected w), (connected w).
  rewrite (initialize_array_loaded now1 w x rest Hst).
  rewrite (initialize_array_loaded now2 (connected w) x rest Hst).
  unfold get_array_source, bind. rewrite !load_array_metadata_run.
  repeat split; exact Hst.
Qed.

(** Claim C9, as the code has it. When the stored defaults satisfy
    [array_size >= 1] and [min_value < max_value], [get_array] returns a
    non-empty array for every store state: a non-empty stored array is
    returned as it is, and a missing or empty one is replaced by a
    freshly generated array of the default size, which is stored.
    [search] then reads [array[0]] and [array[-1]] without an index
    error, whatever the array holds. *)
Theorem get_array_nonempty (now : string) (w : World) :
  1 <= array_size (self w) -> min_value (self w) < max_value (self w) ->
  exists arr w',
    get_array now w = (Ok arr, w') /\
    arr <> [] /\
    kv_array (db (self w')) = Some arr /\
    (not_array (kv_array (db (self w))) = false ->
     kv_array (db (self w)) = Some arr) /\
    (not_array (kv_array (db (self w))) = true ->
     len arr = array_size (self w) /\
     arr = generated (array_size (self w)) (min_value (self w))
                     (max_value (self w)) (seed (self w))) /\
    (forall t, exists out w'', search now t w = (Ok out, w'')).
Proof.
  intros Hsz Hlt.
  assert (Hcore : exists arr w',
    get_array now w = (Ok arr, w') /\ arr <> [] /\
    kv_array (db (self w')) = Some arr /\
    (not_array (kv_array (db (self w))) = false ->
     kv_array (db (self w)) = Some arr) /\
    (not_array (kv_array (db (self w))) = true ->
     len arr = array_size (self w) /\
     arr = generated (array_size (self w)) (min_value (self w))
                     (max_value (self w)) (seed (self w)))).
  { destruct (not_array (kv_array (db (self w)))) eqn:Hnot.
    - rewrite (get_array_generates now w Hnot).
      rewrite (initialize_array_generates now (connected w) Hnot).
      cbv zeta. cbn [connected with_db self array_size min_value
                     max_value seed].
      destruct (min_value (self w) >=? max_value (self w)) eqn:Hge;
        [apply Z.geb_ge in Hge; lia|].
      eexists _, _. split; [reflexivity|].
      assert (Hlen : len (generated (array_size (self w))
                            (min_value (self w)) (max_value (self w))
                            (seed (self w))) = array_size (self w)).
      { unfold len. rewrite generated_length. lia. }
      repeat split; try discriminate; try exact Hlen.
      intros Hnil. rewrite Hnil in Hlen. unfold len in Hlen.
      simpl in Hlen. lia.
    - destruct (kv_array (db (self w))) as [[|x rest]|] eqn:Hst;
        try discriminate.
      exists (x :: rest), (connected w).
      rewrite (get_array_loaded now w x rest Hst).
      repeat split; try discriminate; try exact Hst. }
  destruct Hcore as (arr & w' & Hget & Hne & Hrest).
  exists arr, w'. repeat split; try tauto.
  intros t.
  destruct (search_after_get_array now t w w' arr Hget Hne)
    as (first & last & i & _ & _ & _ & Hs).
  eexists _, _. exact Hs.
Qed.

(** Claim C2, as the code has it. [get_array_source] returns the source
    tag of the stored metadata when the metadata has one; ["unknown"]
    when metadata is stored, is not empty, and has no source entry; and
    ["generated"] whenever no metadata (or an empty record) is stored,
    whether or not an array is. The array key is never read. *)
Theorem get_array_source_cases (w : World) :
  (forall m tag,
      kv_metadata (db (self w)) = Some m -> m !! "source" = Some tag ->
      fst (get_array_source w) = Ok tag) /\
  (forall m,
      kv_metadata (db (self w)) = Some m -> m <> ∅ ->
      m !! "source" = None ->
      fst (get_array_source w) = Ok (JStr "unknown")) /\
  (kv_metadata (db (self w)) = None \/
   kv_metadata (db (self w)) = Some ∅ ->
   fst (get_array_source w) = Ok (JStr "generated")) /\
  (forall w2,
      kv_metadata (db (self w2)) = kv_metadata (db (self w)) ->
      fst (get_array_source w2) = fst (get_array_source w)).
Proof.
  unfold get_array_source, bind.
  repeat split.
  - intros m tag Hm Hs. rewrite load_array_metadata_run, Hm.
    rewrite bool_decide_eq_false_2.
    + rewrite Hs. reflexivity.
    + intros ->. rewrite lookup_empty in Hs. discriminate.
  - intros m Hm Hne Hs. rewrite load_array_metadata_run, Hm.
    rewrite bool_decide_eq_false_2 by exact Hne.
    rewrite Hs. reflexivity.
  - intros [Hm|Hm]; rewrite load_array_metadata_run, Hm; reflexivity.
  - intros w2 Hm. rewrite !load_array_metadata_run, Hm.
    destruct (kv_metadata (db (self w))) as [m|]; [|reflexivity].
    destruct (bool_decide (m = ∅)); reflexivity.
Qed.
End InitializationProperties.

(** ** Statistics *)

Section StatisticsFacts.
Context {pyfloat : PyFloat}.

Lemma most_recent_length (k : nat) (xs : list float) :
  length (most_recent k xs) = Nat.min (length xs) k.
Proof. unfold most_recent. rewrite length_drop. lia. Qed.

Lemma window_step (l : list float) (t : float) :
  (length l <= 1000)%nat ->
  (if len (l ++ [t]) >? 1000 then tail (l ++ [t]) else l ++ [t]) =
  most_recent 1000 (l ++ [t]).
Proof.
  intros Hl. unfold most_recent, len. rewrite length_app. cbn [length].
  destruct (Z.of_nat (length l + 1) >? 1000) eqn:Hgt.
  - apply Z.gtb_lt in Hgt.
    replace (length l + 1 - 1000)%nat with 1%nat by lia.
    destruct l; reflexivity.
  - rewrite Z.gtb_ltb in Hgt. apply Z.ltb_ge in Hgt.
    replace (length l + 1 - 1000)%nat with 0%nat by lia. reflexivity.
Qed.

Lemma track_search_window (s : BinarySearchService) (r : Recording) :
  (length (search_times (_search_stats s)) <= 1000)%nat ->
  search_times (_search_stats (record s r)) =
  most_recent 1000 (search_times (_search_stats s) ++ [rec_time r]).
Proof. intros Hl. rewrite <- window_step by exact Hl. reflexivity. Qed.

(** The window after any run of recordings is the 1000 most recent of
    everything that entered it. *)
Lemma record_all_window (rs : list Recording) :
  forall s : BinarySearchService,
    (length (search_times (_search_stats s)) <= 1000)%nat ->
    search_times (_search_stats (record_all rs s)) =
    most_recent 1000 (search_times (_search_stats s) ++ map rec_time rs).
Proof.
  induction rs as [|r rs IH]; intros s Hl.
  - cbn [record_all fold_left map]. rewrite app_nil_r. unfold most_recent.
    replace (length (search_times (_search_stats s)) - 1000)%nat
      with 0%nat by lia.
    reflexivity.
  - change (record_all (r :: rs) s) with (record_all rs (record s r)).
    pose proof (track_search_window s r Hl) as Hstep.
    rewrite IH.
    2: { rewrite Hstep, most_recent_length. lia. }
    rewrite Hstep. unfold most_recent.
    set (l := search_times (_search_stats s)) in *.
    rewrite <- drop_app_le by (rewrite length_app; cbn [length]; lia).
    rewrite drop_drop, <- app_assoc. cbn [map app].
    f_equal. rewrite !length_app, length_drop, !length_app.
    cbn [length]. rewrite length_map. lia.
Qed.
End StatisticsFacts.

Section StatisticsProperties.
Context {pyfloat : PyFloat}.

(** Claim C5. Starting from a fresh service, after any [n] recordings the
    timing window holds the [min n 1000] most recent times in order; one
    more recording appends its time and, once 1000 are held, drops the
    oldest; and the snapshot's average is the mean of exactly those
    most recent [min n 1000] times. *)
Theorem timing_window_bounded_fifo (d : RedisDatabase)
    (rs : list Recording) (r : Recording) (today : string) :
  let s := record_all rs (init_service d) in
  let n := length rs in
  let window := search_times (_search_stats s) in
  window = drop (n - 1000) (map rec_time rs) /\
  length window = Nat.min n 1000 /\
  search_times (_search_stats (record_all (rs ++ [r]) (init_service d))) =
    (if (1000 <=? n)%nat then tail window else window) ++ [rec_time r] /\
  average_search_time_ms (get_statistics today s) =
    mean (drop (n - 1000) (map rec_time rs)).
Proof.
  cbv zeta.
  pose proof (record_all_window rs (init_service d)) as Hw.
  cbn [init_service _search_stats search_times length app] in Hw.
  specialize (Hw ltac:(lia)). unfold most_recent in Hw.
  rewrite length_map in Hw.
  assert (Hlen : length (search_times (_search_stats
                   (record_all rs (init_service d)))) =
                 Nat.min (length rs) 1000).
  { rewrite Hw, length_drop, length_map. lia. }
  repeat split.
  - exact Hw.
  - exact Hlen.
  - unfold record_all. rewrite fold_left_app. cbn [fold_left].
    fold (record_all rs (init_service d)).
    rewrite track_search_window by lia. unfold most_recent.
    rewrite length_app. cbn [length]. rewrite Hlen.
    destruct (1000 <=? length rs)%nat eqn:Hn.
    + apply Nat.leb_le in Hn.
      replace (Nat.min (length rs) 1000 + 1 - 1000)%nat with 1%nat by lia.
      destruct (search_times (_search_stats
                  (record_all rs (init_service d)))) eqn:Hl;
        [simpl in Hlen; lia | reflexivity].
    + apply Nat.leb_gt in Hn.
      replace (Nat.min (length rs) 1000 + 1 - 1000)%nat with 0%nat by lia.
      reflexivity.
  - unfold get_statistics. cbn [average_search_time_ms].
    rewrite Hw. reflexivity.
Qed.
End StatisticsProperties.


(** * Concrete runs *)

(** The scenario of the specification: 1500 recordings leave 1000 samples,
    501 to 1500, whose mean is 1000.5. *)
Example window_after_1500_recordings :
  let s := record_all (ramp 1500) (init_service empty_db) in
  length (search_times (_search_stats s)) = 1000%nat /\
  head (search_times (_search_stats s)) = Some (inject_Z 501) /\
  Qeq (average_search_time_ms (get_statistics "2026-01-01" s)) (2001 # 2) /\
  total_searches (_search_stats s) = 1500.
Proof. vm_compute. repeat split. Qed.

Lemma search_found_iff_occurs_witness :
  kv_array (db (self loaded_world)) = Some [1; 3; 5; 7; 9] /\
  [1; 3; 5; 7; 9] <> [] /\
  nondecreasing [1; 3; 5; 7; 9] /\
  exists out w',
    search "2026-01-01T00:00:00" 7 loaded_world = (Ok out, w') /\
    (found out = true <-> 7 ∈ [1; 3; 5; 7; 9]) /\
    (found out = true ->
     0 <= index out < len [1; 3; 5; 7; 9] /\
     getitem [1; 3; 5; 7; 9] (index out) = Ok 7) /\
    (7 ∉ [1; 3; 5; 7; 9] -> found out = false /\ index out = -1).
Proof.
  assert (H1 : kv_array (db (self loaded_world)) = Some [1; 3; 5; 7; 9])
    by reflexivity.
  assert (H2 : [1; 3; 5; 7; 9] <> []) by discriminate.
  assert (H3 : nondecreasing [1; 3; 5; 7; 9])
    by (apply is_sorted_nondecreasing; reflexivity).
  exact (conj H1 (conj H2 (conj H3
           (search_found_iff_occurs "2026-01-01T00:00:00" loaded_world
              [1; 3; 5; 7; 9] 7 H1 H2 H3)))).
Defined.

Lemma search_precheck_is_optimization_witness :
  kv_array (db (self loaded_world)) = Some [1; 3; 5; 7; 9] /\
  [1; 3; 5; 7; 9] <> [] /\
  nondecreasing [1; 3; 5; 7; 9] /\
  exists out w',
    search "2026-01-01T00:00:00" 0 loaded_world = (Ok out, w') /\
    plain_search [1; 3; 5; 7; 9] 0 = Ok (found out, index out).
Proof.
  assert (H1 : kv_array (db (self loaded_world)) = Some [1; 3; 5; 7; 9])
    by reflexivity.
  assert (H2 : [1; 3; 5; 7; 9] <> []) by discriminate.
  assert (H3 : nondecreasing [1; 3; 5; 7; 9])
    by (apply is_sorted_nondecreasing; reflexivity).
  exact (conj H1 (conj H2 (conj H3
           (search_precheck_is_optimization "2026-01-01T00:00:00"
              loaded_world [1; 3; 5; 7; 9] 0 H1 H2 H3)))).
Defined.

Lemma generated_array_nondecreasing_witness :
  py_or (Some 1) (min_value (self fresh_world)) <
  py_or (Some 10) (max_value (self fresh_world)) /\
  exists arr,
    nondecreasing arr /\
    (exists w', _generate_array (Some 10) (Some 1) (Some 10) (Some 1)
                  fresh_world = (Ok arr, w')) /\
    (exists w', reset_array "2026-01-01T00:00:00" (Some 10) (Some 1)
                  (Some 10) (Some 1) fresh_world = (Ok tt, w') /\
                kv_array (db (self w')) = Some arr).
Proof.
  assert (H1 : py_or (Some 1) (min_value (self fresh_world)) <
               py_or (Some 10) (max_value (self fresh_world)))
    by reflexivity.
  exact (conj H1
           (generated_array_nondecreasing "2026-01-01T00:00:00" (Some 10)
              (Some 1) (Some 10) (Some 1) fresh_world H1)).
Defined.

Lemma reset_failure_keeps_assigned_defaults_witness :
  py_or (Some 50) (min_value (self fresh_world)) >=
  py_or (Some 10) (max_value (self fresh_world)) /\
  exists w',
    reset_array "2026-01-01T00:00:00" None (Some 50) (Some 10) None
      fresh_world =
    (Raise (ValueError "min_value must be less than max_value"), w') /\
    db (self w') = db (self fresh_world) /\
    array_size (self w') = py_or None (array_size (self fresh_world)) /\
    min_value (self w') = py_or (Some 50) (min_value (self fresh_world)) /\
    max_value (self w') = py_or (Some 10) (max_value (self fresh_world)) /\
    seed (self w') = py_or None (seed (self fresh_world)) /\
    _search_stats (self w') = _search_stats (self fresh_world) /\
    random w' = random fresh_world.
Proof.
  assert (H1 : py_or (Some 50) (min_value (self fresh_world)) >=
               py_or (Some 10) (max_value (self fresh_world)))
    by (intros Hlt; discriminate Hlt).
  exact (conj H1
           (reset_failure_keeps_assigned_defaults "2026-01-01T00:00:00"
              None (Some 50) (Some 10) None fresh_world H1)).
Defined.

(** The failed reset above did change the defaults: the bounds are now 50
    and 10, where they were 1 and 1000. *)
Example failed_reset_changes_defaults :
  min_value (self fresh_world) = 1 /\
  max_value (self fresh_world) = 1000 /\
  min_value (self after_failed_reset) = 50 /\
  max_value (self after_failed_reset) = 10 /\
  kv_array (db (self after_failed_reset)) = None /\
  kv_metadata (db (self after_failed_reset)) = None.
Proof. vm_compute. repeat split. Qed.

Lemma initialize_array_idempotent_witness :
  kv_array (db (self loaded_world)) = Some [1; 3; 5; 7; 9] /\
  [1; 3; 5; 7; 9] <> [] /\
  exists w1 w2,
    initialize_array "2026-01-01T00:00:00" loaded_world
      = (Ok [1; 3; 5; 7; 9], w1) /\
    initialize_array "2026-01-01T00:00:01" w1 = (Ok [1; 3; 5; 7; 9], w2) /\
    kv_array (db (self w1)) = Some [1; 3; 5; 7; 9] /\
    kv_array (db (self w2)) = Some [1; 3; 5; 7; 9] /\
    kv_metadata (db (self w1)) = kv_metadata (db (self loaded_world)) /\
    kv_metadata (db (self w2)) = kv_metadata (db (self loaded_world)) /\
    fst (get_array_source w1) = fst (get_array_source loaded_world) /\
    fst (get_array_source w2) = fst (get_array_source loaded_world) /\
    w2 = w1.
Proof.
  assert (H1 : kv_array (db (self loaded_world)) = Some [1; 3; 5; 7; 9])
    by reflexivity.
  assert (H2 : [1; 3; 5; 7; 9] <> []) by discriminate.
  exact (conj H1 (conj H2
           (initialize_array_idempotent "2026-01-01T00:00:00"
              "2026-01-01T00:00:01" loaded_world [1; 3; 5; 7; 9] H1 H2))).
Defined.

Lemma get_array_nonempty_witness :
  1 <= array_size (self fresh_world) /\
  min_value (self fresh_world) < max_value (self fresh_world) /\
  exists arr w',
    get_array "2026-01-01T00:00:00" fresh_world = (Ok arr, w') /\
    arr <> [] /\
    kv_array (db (self w')) = Some arr /\
    (not_array (kv_array (db (self fresh_world))) = false ->
     kv_array (db (self fresh_world)) = Some arr) /\
    (not_array (kv_array (db (self fresh_world))) = true ->
     len arr = array_size (self fresh_world) /\
     arr = generated (array_size (self fresh_world))
                     (min_value (self fresh_world))
                     (max_value (self fresh_world))
                     (seed (self fresh_world))) /\
    (forall t, exists out w'',
        search "2026-01-01T00:00:00" t fresh_world = (Ok out, w'')).
Proof.
  assert (H1 : 1 <= array_size (self fresh_world))
    by (intros Hgt; discriminate Hgt).
  assert (H2 : min_value (self fresh_world) < max_value (self fresh_world))
    by reflexivity.
  exact (conj H1 (conj H2
           (get_array_nonempty "2026-01-01T00:00:00" fresh_world H1 H2))).
Defined.

(** After the rejected reset the store is still empty and the default size
    is still 100, yet [get_array] returns no array: the generation it
    starts fails the bounds check on the defaults the reset left behind. *)
Lemma get_array_raises_after_failed_reset :
  fst (reset_array "2026-01-01T00:00:00" None (Some 50) (Some 10) None
         fresh_world)
  = Raise (ValueError "min_value must be less than max_value") /\
  kv_array (db (self after_failed_reset)) = None /\
  array_size (self after_failed_reset) = 100 /\
  fst (get_array "2026-01-01T00:00:01" after_failed_reset)
  = Raise (ValueError "min_value must be less than max_value") /\
  fst (search "2026-01-01T00:00:01" 42 after_failed_reset)
  = Raise (ValueError "min_value must be less than max_value").
Proof. vm_compute. repeat split. Qed.

Lemma get_array_source_cases_witness :
  kv_metadata (db (self loaded_world))
  = Some {[ "source" := JStr "regenerated" ]} /\
  ({[ "source" := JStr "regenerated" ]} : gmap string jval) !! "source"
  = Some (JStr "regenerated") /\
  fst (get_array_source loaded_world) = Ok (JStr "regenerated").
Proof.
  assert (H1 : kv_metadata (db (self loaded_world))
               = Some {[ "source" := JStr "regenerated" ]}) by reflexivity.
  assert (H2 : ({[ "source" := JStr "regenerated" ]} : gmap string jval)
               !! "source" = Some (JStr "regenerated")) by reflexivity.
  exact (conj H1 (conj H2
           (proj1 (get_array_source_cases loaded_world)
                  {[ "source" := JStr "regenerated" ]}
                  (JStr "regenerated") H1 H2))).
Defined.

(** An array is stored and the metadata is missing: the answer is
    ["generated"], not ["unknown"]. *)
Lemma get_array_source_generated_despite_array :
  kv_array (db (self array_only_world)) = Some [1; 2; 3] /\
  kv_metadata (db (self array_only_world)) = None /\
  fst (get_array_source array_only_world) = Ok (JStr "generated") /\
  fst (get_array_source array_only_world) <> Ok (JStr "unknown").
Proof. vm_compute. repeat split. discriminate. Qed.

(** What the source tag is after each of the two writers has run. *)
Example source_after_initialize_and_reset :
  fst ((initialize_array "2026-01-01T00:00:00";;; get_array_source)
         fresh_world) = Ok (JStr "generated") /\
  fst ((reset_array "2026-01-01T00:00:00" (Some 10) None None None;;;
        get_array_source) fresh_world) = Ok (JStr "regenerated").
Proof. vm_compute. repeat split. Qed.

(** A direct [reset_array(size=-5)] stores an empty array; [get_array]
    then regenerates an empty array again and [search] fails on
    [array[0]]. The routing layer never passes a size below 10. *)
Example search_index_error_on_negative_size :
  fst ((reset_array "2026-01-01T00:00:00" (Some (-5)) None None None;;;
        get_array "2026-01-01T00:00:01") fresh_world) = Ok [] /\
  fst ((reset_array "2026-01-01T00:00:00" (Some (-5)) None None None;;;
        search "2026-01-01T00:00:01" 42) fresh_world)
  = Raise (IndexError "list index out of range").
Proof. vm_compute. repeat split. Qed.

(** * Further properties of the service *)

(** ** Binary search on lists that need not be sorted *)

(** Property X1.
    On every list, sorted or not, [_binary_search] returns without an index
    error; the result is [-1] or a valid position, and a position it
    returns holds the target. *)
Theorem _binary_search_sound_on_any_list (arr : list Z) (target : Z) :
  exists i,
    _binary_search arr target = Ok i /\
    -1 <= i < len arr /\
    (i <> -1 -> getitem arr i = Ok target) /\
    (target ∉ arr -> i = -1).
Proof.
  destruct (_binary_search_returns arr target) as [i [Hi Hp]].
  exists i. split; [exact Hi|].
  destruct Hp as [->|[Hr Hv]].
  - unfold len. split; [lia|]. split; [intros H; congruence | reflexivity].
  - destruct (getitem_in_range arr i Hr) as [y [Hy Hy']].
    split; [lia|]. split.
    + intros _. congruence.
    + intros Hnot. exfalso. apply Hnot.
      eapply list_elem_of_lookup_2. exact Hv.
Qed.

(** ** Every way [get_array] and [search] can end *)

Section SearchOutcomes.
Context {prng : PRNG} {pyfloat : PyFloat}.

(** [get_array], run on any state: a stored non-empty array is loaded;
    otherwise the bounds check on the defaults decides between the error
    and a generated array, which is stored with its metadata. *)
Lemma get_array_run (now : string) (w : World) :
  get_array now w =
  let s := self w in
  let arr := generated (array_size s) (min_value s) (max_value s) (seed s) in
  if not_array (kv_array (db s)) then
    if min_value s >=? max_value s
    then (Raise (ValueError "min_value must be less than max_value"),
          connected w)
    else
      (Ok arr,
       with_db {| client := true; kv_array := Some arr;
                  kv_metadata := Some (initial_metadata now arr s) |}
               {| self := s;
                  random := snd (draw (Z.to_nat (array_size s)) (min_value s)
                                      (max_value s) (rng_seed (seed s))) |})
  else (Ok (default [] (kv_array (db s))), connected w).
Proof.
  cbv zeta. destruct (not_array (kv_array (db (self w)))) eqn:Hnot.
  - rewrite (get_array_generates now w Hnot).
    rewrite (initialize_array_generates now (connected w) Hnot).
    reflexivity.
  - destruct (kv_array (db (self w))) as [[|x rest]|] eqn:Hst;
      try discriminate.
    rewrite (get_array_loaded now w x rest Hst). reflexivity.
Qed.

Lemma search_on_empty_array (now : string) (t : Z) (w w' : World) :
  get_array now w = (Ok [], w') ->
  search now t w = (Raise (IndexError "list index out of range"), w').
Proof. intros Hget. unfold search, bind. rewrite Hget. reflexivity. Qed.

Lemma search_on_get_array_error (now : string) (t : Z) (w w' : World)
    (e : exn) :
  get_array now w = (Raise e, w') -> search now t w = (Raise e, w').
Proof. intros Hget. unfold search, bind. rewrite Hget. reflexivity. Qed.

(** The array [get_array] returns is the one the store holds afterwards. *)
Lemma get_array_returns_stored (now : string) (w w' : World) (A : list Z) :
  get_array now w = (Ok A, w') -> kv_array (db (self w')) = Some A.
Proof.
  rewrite get_array_run. cbv zeta.
  destruct (not_array (kv_array (db (self w)))) eqn:Hnot.
  - destruct (min_value (self w) >=? max_value (self w)); [discriminate|].
    intros H. injection H as <- <-. reflexivity.
  - destruct (kv_array (db (self w))) as [[|x rest]|] eqn:Hst;
      try discriminate.
    intros H. injection H as <- <-. exact Hst.
Qed.

(** Property X2.
    [search] on any state and any target ends in exactly one of three
    ways, decided by the store and the defaults: an outcome, when a
    non-empty array is stored or can be generated; the [ValueError] of the
    bounds check, when none is stored and the defaults have
    [min_value >= max_value]; the [IndexError] of [array[0]], when none is
    stored and the default size yields an empty array. *)
Theorem search_ends_in_three_ways (now : string) (t : Z) (w : World) :
  let s := self w in
  let missing := not_array (kv_array (db s)) in
  ((exists out, fst (search now t w) = Ok out) <->
   (missing = false \/ (min_value s < max_value s /\ 1 <= array_size s))) /\
  ((exists msg, fst (search now t w) = Raise (ValueError msg)) <->
   (missing = true /\ min_value s >= max_value s)) /\
  ((exists msg, fst (search now t w) = Raise (IndexError msg)) <->
   (missing = true /\ min_value s < max_value s /\ array_size s <= 0)).
Proof.
  cbv zeta.
  destruct (get_array now w) as [r w'] eqn:Hget.
  pose proof Hget as Hrun. rewrite get_array_run in Hrun. cbv zeta in Hrun.
  destruct (not_array (kv_array (db (self w)))) eqn:Hnot.
  - destruct (min_value (self w) >=? max_value (self w)) eqn:Hge.
    + apply Z.geb_ge in Hge. injection Hrun as <- <-.
      rewrite (search_on_get_array_error now t w _ _ Hget). cbn [fst].
      split; [|split]; split; settle_direction.
    + rewrite Z.geb_leb in Hge. apply Z.leb_gt in Hge.
      injection Hrun as <- <-.
      pose proof (generated_length (array_size (self w)) (min_value (self w))
                    (max_value (self w)) (seed (self w))) as Hlen.
      destruct (generated (array_size (self w)) (min_value (self w))
                  (max_value (self w)) (seed (self w))) as [|x rest] eqn:Hgen.
      * rewrite (search_on_empty_array now t w _ Hget). cbn [fst].
        simpl in Hlen.
        split; [|split]; split; settle_direction.
      * destruct (search_after_get_array now t w _ (x :: rest) Hget
                    ltac:(discriminate))
          as (first & last & i & _ & _ & _ & Hs).
        rewrite Hs. cbn [fst]. simpl in Hlen.
        split; [|split]; split; settle_direction.
  - destruct (kv_array (db (self w))) as [[|x rest]|] eqn:Hst;
      try discriminate.
    injection Hrun as <- <-.
    destruct (search_after_get_array now t w _ (x :: rest) Hget
                ltac:(discriminate))
      as (first & last & i & _ & _ & _ & Hs).
    rewrite Hs. cbn [fst].
    split; [|split]; split; settle_direction.
Qed.
(** Property X3.
    The boundary pre-check needs no sortedness: on any stored non-empty
    array, a target below [array[0]] or above [array[-1]] is reported as
    not found with index [-1], the two bounds are reported as they are
    stored, and nothing is written. *)
Theorem search_short_circuits_outside_bounds (now : string) (w : World)
    (A : list Z) (first last t : Z) :
  kv_array (db (self w)) = Some A ->
  A !! 0%nat = Some first -> A !! (length A - 1)%nat = Some last ->
  t < first \/ t > last ->
  search now t w =
  (Ok {| found := false; index := -1; value := t;
         out_array_size := len A;
         array_min := first; array_max := last |}, connected w).
Proof.
  intros Hst Hf Hl Hout.
  assert (Hne : A <> []) by (intros ->; discriminate Hf).
  assert (Hget : get_array now w = (Ok A, connected w)).
  { destruct A as [|x rest]; [congruence|]. apply get_array_loaded, Hst. }
  destruct (search_after_get_array now t w _ A Hget Hne)
    as (first' & last' & i & Hf' & Hl' & _ & Hs).
  assert (first' = first) by congruence.
  assert (last' = last) by congruence. subst first' last'.
  rewrite Hs.
  assert (Hb : (t <? first) || (t >? last) = true).
  { apply orb_true_iff. destruct Hout as [H|H];
      [left; apply Z.ltb_lt; exact H | right; apply Z.gtb_lt; lia]. }
  rewrite Hb. reflexivity.
Qed.

(** Property X4.
    Whatever the state, an outcome [search] returns is well formed: it
    echoes the target, reports the length and the two ends of the array
    the store holds after the call, its index is [-1] or a position of
    that array holding the target, and [found] says which. In particular
    the index is never below [-1] and the size never below [1]. *)
Theorem search_outcome_well_formed (now : string) (t : Z) (w w' : World)
    (out : SearchOutcome) :
  search now t w = (Ok out, w') ->
  exists A,
    kv_array (db (self w')) = Some A /\
    value out = t /\
    out_array_size out = len A /\ 1 <= out_array_size out /\
    getitem A 0 = Ok (array_min out) /\
    getitem A (-1) = Ok (array_max out) /\
    -1 <= index out < len A /\
    found out = negb (index out =? -1) /\
    (found out = true -> getitem A (index out) = Ok t).
Proof.
  intros Hs.
  destruct (get_array now w) as [[A|e] w1] eqn:Hget.
  2: { rewrite (search_on_get_array_error now t w _ _ Hget) in Hs.
       discriminate. }
  destruct A as [|x rest].
  { rewrite (search_on_empty_array now t w _ Hget) in Hs. discriminate. }
  destruct (search_after_get_array now t w _ (x :: rest) Hget
              ltac:(discriminate))
    as (first & last & i & Hf & Hl & Hi & Hs').
  rewrite Hs' in Hs. injection Hs as <- <-.
  exists (x :: rest). cbn [value out_array_size array_min array_max index found].
  destruct (getitem_last (x :: rest) ltac:(discriminate)) as [y [Hy Hy']].
  assert (y = last) by congruence. subst y.
  simpl in Hf. injection Hf as <-.
  destruct (_binary_search_returns (x :: rest) t) as [i' [Hi' Hp]].
  assert (i' = i) by congruence. subst i'.
  assert (Hlen : 1 <= len (x :: rest)) by (unfold len; simpl length; lia).
  split; [exact (get_array_returns_stored now w _ _ Hget)|].
  split; [reflexivity|]. split; [reflexivity|]. split; [exact Hlen|].
  split; [apply getitem_first|]. split; [exact Hy|].
  destruct ((t <? x) || (t >? last)).
  - split; [lia|]. split; [reflexivity | discriminate].
  - destruct Hp as [->|[Hr Hv]].
    + split; [lia|]. split; [reflexivity | discriminate].
    + destruct (getitem_in_range _ i Hr) as [z [Hz Hz']].
      split; [lia|]. split; [reflexivity|]. intros _. congruence.
Qed.
End SearchOutcomes.

(** ** What generation and reset produce *)

Lemma sorted_elem_of (l : list Z) (x : Z) : x ∈ sorted l <-> x ∈ l.
Proof. unfold sorted. rewrite merge_sort_Permutation. reflexivity. Qed.

Lemma lcg_randint_in_range : randint_in_range lcg_prng.
Proof.
  intros a b g Hab. cbn [rng_randint lcg_prng fst].
  pose proof (Z.mod_pos_bound (lcg_next g) (b - a + 1) ltac:(lia)). lia.
Qed.

Section GenerationRange.
Context {prng : PRNG} {pyfloat : PyFloat}.

Lemma draw_in_range (n : nat) (a b : Z) (g : rng_state) :
  randint_in_range prng -> a <= b ->
  forall x, x ∈ fst (draw n a b g) -> a <= x <= b.
Proof.
  intros Hrange Hab. revert g. induction n as [|n IH]; intros g x Hx.
  - simpl in Hx. apply elem_of_nil in Hx. contradiction.
  - simpl in Hx. pose proof (Hrange a b g Hab) as Hfirst.
    destruct (rng_randint a b g) as [y g1].
    specialize (IH g1). destruct (draw n a b g1) as [ys g2].
    cbn [fst] in *. apply elem_of_cons in Hx as [->|Hx]; [exact Hfirst|].
    exact (IH x Hx).
Qed.

(** Property X5.
    A successful generation returns exactly [size] values (none when the
    effective size is not positive), each within the effective bounds as
    long as [random.randint] keeps its contract, and it leaves the service
    object as it was. *)
Theorem generated_array_length_and_range
    (size min_val max_val seed' : option Z) (w : World) :
  randint_in_range prng ->
  py_or min_val (min_value (self w)) < py_or max_val (max_value (self w)) ->
  exists arr w',
    _generate_array size min_val max_val seed' w = (Ok arr, w') /\
    len arr = Z.max 0 (py_or size (array_size (self w))) /\
    (forall x, x ∈ arr ->
       py_or min_val (min_value (self w)) <= x
       <= py_or max_val (max_value (self w))) /\
    self w' = self w.
Proof.
  intros Hrange Hlt. rewrite _generate_array_run. cbv zeta.
  destruct (py_or min_val (min_value (self w)) >=?
            py_or max_val (max_value (self w))) eqn:Hge;
    [apply Z.geb_ge in Hge; lia|].
  eexists _, _. split; [reflexivity|]. split; [|split].
  - unfold len. rewrite generated_length. lia.
  - intros x Hx. unfold generated in Hx.
    apply (proj1 (sorted_elem_of _ _)) in Hx.
    refine (draw_in_range _ _ _ _ Hrange _ x Hx). lia.
  - reflexivity.
Qed.
End GenerationRange.

Section PersistenceProperties.
Context {prng : PRNG} {pyfloat : PyFloat}.

(** On a state whose [get_array] returns a non-empty sorted array,
    [search] finds exactly the values of that array. *)
Lemma search_found_iff_elem (now : string) (t : Z) (w w' : World)
    (A : list Z) :
  get_array now w = (Ok A, w') -> A <> [] -> nondecreasing A ->
  exists out,
    search now t w = (Ok out, w') /\
    (found out = true <-> t ∈ A) /\
    out_array_size out = len A.
Proof.
  intros Hget Hne Hnd.
  destruct (search_after_get_array now t w _ A Hget Hne)
    as (first & last & i & Hf & Hl & Hi & Hs).
  eexists. split; [exact Hs|]. cbn [found out_array_size].
  split; [|reflexivity].
  destruct ((t <? first) || (t >? last)) eqn:Hout.
  - pose proof (outside_bounds_not_elem A t first last Hnd Hf Hl Hout).
    split; [discriminate | tauto].
  - destruct (_binary_search_returns A t) as [i' [Hi' Hp]].
    assert (i' = i) by congruence. subst i'.
    destruct Hp as [->|[Hr Hv]].
    + pose proof (_binary_search_complete A t Hnd Hi) as Hnot.
      change (negb (-1 =? -1)) with false. split; [discriminate | tauto].
    + assert (Hin : t ∈ A) by (eapply list_elem_of_lookup_2; exact Hv).
      assert (Hnz : (i =? -1) = false) by (apply Z.eqb_neq; lia).
      rewrite Hnz. split; [intros _; exact Hin | reflexivity].
Qed.

(** Property X6.
    A successful reset writes an array and a metadata record that agree:
    the recorded size is the array's length, the recorded bounds and seed
    are the effective ones, which are also the new stored defaults, and
    the source tag is ["regenerated"]. What the store held before plays no
    part in what it holds after, and the statistics are not touched. *)
Theorem reset_array_writes_consistent_metadata (now : string)
    (size min_value' max_value' seed' : option Z) (w : World) :
  py_or min_value' (min_value (self w)) <
  py_or max_value' (max_value (self w)) ->
  exists arr md w',
    reset_array now size min_value' max_value' seed' w = (Ok tt, w') /\
    kv_array (db (self w')) = Some arr /\
    kv_metadata (db (self w')) = Some md /\
    md !! "size" = Some (JInt (len arr)) /\
    md !! "min_value" = Some (JInt (min_value (self w'))) /\
    md !! "max_value" = Some (JInt (max_value (self w'))) /\
    md !! "seed" = Some (JInt (seed (self w'))) /\
    md !! "generated_at" = Some (JStr now) /\
    md !! "source" = Some (JStr "regenerated") /\
    fst (get_array_source w') = Ok (JStr "regenerated") /\
    _search_stats (self w') = _search_stats (self w) /\
    (forall d : RedisDatabase,
        db (self (snd (reset_array now size min_value' max_value' seed'
                         (with_db d w)))) = db (self w')).
Proof.
  intros Hlt.
  assert (Hge : (py_or min_value' (min_value (self w)) >=?
                 py_or max_value' (max_value (self w))) = false)
    by (rewrite Z.geb_leb; apply Z.leb_gt; exact Hlt).
  rewrite reset_array_run. cbv zeta.
  cbn [with_defaults self array_size min_value max_value seed].
  rewrite Hge.
  eexists _, _, _. split; [reflexivity|].
  cbn [with_db self db kv_array kv_metadata min_value max_value seed
       _search_stats].
  repeat match goal with |- _ /\ _ => split end; try reflexivity.
  intros d. rewrite reset_array_run. cbv zeta.
  cbn [with_defaults with_db self array_size min_value max_value seed].
  rewrite Hge. reflexivity.
Qed.

(** Property X7.
    After a successful reset whose effective size is at least 1, every
    search runs on the array just generated: it returns an outcome, finds
    exactly the values of that array, reports its length, and writes
    nothing more to the store. *)
Theorem reset_then_search_uses_new_array (now : string)
    (size min_value' max_value' seed' : option Z) (w : World) :
  py_or min_value' (min_value (self w)) <
  py_or max_value' (max_value (self w)) ->
  1 <= py_or size (array_size (self w)) ->
  exists arr w1,
    reset_array now size min_value' max_value' seed' w = (Ok tt, w1) /\
    kv_array (db (self w1)) = Some arr /\
    len arr = py_or size (array_size (self w)) /\
    nondecreasing arr /\
    forall (now' : string) (t : Z),
      get_array now' w1 = (Ok arr, w1) /\
      exists out,
        search now' t w1 = (Ok out, w1) /\
        (found out = true <-> t ∈ arr) /\
        out_array_size out = py_or size (array_size (self w)).
Proof.
  intros Hlt Hsz. rewrite reset_array_run. cbv zeta.
  cbn [with_defaults self array_size min_value max_value seed].
  assert (Hge : (py_or min_value' (min_value (self w)) >=?
                 py_or max_value' (max_value (self w))) = false)
    by (rewrite Z.geb_leb; apply Z.leb_gt; exact Hlt).
  rewrite Hge.
  set (arr := generated (py_or size (array_size (self w)))
                (py_or min_value' (min_value (self w)))
                (py_or max_value' (max_value (self w)))
                (py_or seed' (seed (self w)))).
  assert (Hlen : len arr = py_or size (array_size (self w))).
  { unfold len, arr. rewrite generated_length. lia. }
  assert (Hnd : nondecreasing arr) by apply sorted_nondecreasing.
  eexists arr, _. split; [reflexivity|].
  split; [reflexivity|]. split; [exact Hlen|]. split; [exact Hnd|].
  intros now' t.
  destruct arr as [|x rest] eqn:Harr;
    [unfold len in Hlen; simpl in Hlen; lia|].
  match goal with |- get_array now' ?w1 = _ /\ _ =>
    assert (Hget : get_array now' w1 = (Ok (x :: rest), w1))
      by (apply (get_array_loaded now' w1 x rest); reflexivity)
  end.
  split; [exact Hget|].
  destruct (search_found_iff_elem now' t _ _ (x :: rest) Hget
              ltac:(discriminate) Hnd) as (out & Hs & Hiff & Hsize).
  exists out. split; [exact Hs|]. split; [exact Hiff|].
  rewrite Hsize. exact Hlen.
Qed.

(** Property X8.
    Lazy initialization over a store with no array (or an empty one), when
    the defaults pass the bounds check: the array it returns is sorted and
    is what it stores, together with a metadata record giving its length,
    the defaults it was generated from and the source tag ["generated"];
    the defaults themselves are unchanged. When the default size is at
    least 1, calling it again, or [get_array], returns that same array and
    changes nothing. *)
Theorem initialize_array_persists_what_it_returns (now : string)
    (w : World) :
  not_array (kv_array (db (self w))) = true ->
  min_value (self w) < max_value (self w) ->
  exists arr md w',
    initialize_array now w = (Ok arr, w') /\
    nondecreasing arr /\
    kv_array (db (self w')) = Some arr /\
    kv_metadata (db (self w')) = Some md /\
    md !! "size" = Some (JInt (len arr)) /\
    md !! "min_value" = Some (JInt (min_value (self w))) /\
    md !! "max_value" = Some (JInt (max_value (self w))) /\
    md !! "seed" = Some (JInt (seed (self w))) /\
    md !! "source" = Some (JStr "generated") /\
    fst (get_array_source w') = Ok (JStr "generated") /\
    array_size (self w') = array_size (self w) /\
    min_value (self w') = min_value (self w) /\
    max_value (self w') = max_value (self w) /\
    seed (self w') = seed (self w) /\
    (1 <= array_size (self w) ->
     forall now' : string,
       initialize_array now' w' = (Ok arr, w') /\
       get_array now' w' = (Ok arr, w')).
Proof.
  intros Hnot Hlt. rewrite (initialize_array_generates now w Hnot).
  cbv zeta.
  assert (Hge : (min_value (self w) >=? max_value (self w)) = false)
    by (rewrite Z.geb_leb; apply Z.leb_gt; exact Hlt).
  rewrite Hge.
  set (arr := generated (array_size (self w)) (min_value (self w))
                (max_value (self w)) (seed (self w))).
  eexists arr, _, _. split; [reflexivity|].
  split; [apply sorted_nondecreasing|].
  cbn [with_db self db kv_array kv_metadata array_size min_value max_value
       seed].
  repeat match goal with |- _ /\ _ => split end; try reflexivity.
  intros Hsz now'.
  assert (Hlen : len arr = array_size (self w)).
  { unfold len, arr. rewrite generated_length. lia. }
  destruct arr as [|x rest] eqn:Harr;
    [unfold len in Hlen; simpl in Hlen; lia|].
  match goal with |- initialize_array now' ?w1 = _ /\ _ =>
    split;
    [ exact (initialize_array_loaded now' w1 x rest eq_refl)
    | exact (get_array_loaded now' w1 x rest eq_refl) ]
  end.
Qed.
End PersistenceProperties.

(** ** Counters and frequency tables of the statistics *)

Section DictFacts.
Context {K V : Type} `{EqDecision K}.

Lemma dict_get_set_eq (d : list (K * V)) (k : K) (v dflt : V) :
  dict_get (dict_set d k v) k dflt = v.
Proof.
  induction d as [|[k' v'] d IH]; simpl.
  - destruct (decide (k = k)); [reflexivity | contradiction].
  - destruct (decide (k' = k)) as [->|Hne]; simpl.
    + destruct (decide (k = k)); [reflexivity | contradiction].
    + destruct (decide (k' = k)); [contradiction | exact IH].
Qed.

Lemma dict_get_set_ne (d : list (K * V)) (k k' : K) (v dflt : V) :
  k <> k' -> dict_get (dict_set d k v) k' dflt = dict_get d k' dflt.
Proof.
  intros Hne. induction d as [|[k0 v0] d IH]; simpl.
  - destruct (decide (k = k')); [contradiction | reflexivity].
  - destruct (decide (k0 = k)) as [->|Hk]; simpl.
    + destruct (decide (k = k')); [contradiction | reflexivity].
    + destruct (decide (k0 = k')); [reflexivity | exact IH].
Qed.

(** Assigning to a key keeps the insertion order: a key already present
    stays where it is, a new key goes to the end. *)
Lemma dict_set_keys (d : list (K * V)) (k : K) (v : V) :
  (dict_set d k v).*1 = if decide (k ∈ d.*1) then d.*1 else d.*1 ++ [k].
Proof.
  induction d as [|[k0 v0] d IH].
  - cbn [dict_set fmap list_fmap fst].
    rewrite decide_False by apply not_elem_of_nil. reflexivity.
  - cbn [dict_set]. rewrite !fmap_cons. cbn [fst].
    destruct (decide (k0 = k)) as [->|Hk].
    + rewrite decide_True by (apply elem_of_cons; left; reflexivity).
      reflexivity.
    + rewrite fmap_cons, IH. cbn [fst].
      destruct (decide (k ∈ d.*1)) as [Hin|Hnin].
      * rewrite decide_True by (apply elem_of_cons; right; exact Hin).
        reflexivity.
      * rewrite decide_False; [reflexivity|].
        intros [Heq|Hin]%elem_of_cons; [congruence | contradiction].
Qed.

(** A value read with a default is the value stored under the key. *)
Lemma dict_get_elem_of (d : list (K * V)) (k : K) (v dflt : V) :
  NoDup d.*1 -> (k, v) ∈ d -> dict_get d k dflt = v.
Proof.
  induction d as [|[k0 v0] d IH]; intros Hnd Hin.
  - apply elem_of_nil in Hin. contradiction.
  - simpl in *. apply NoDup_cons in Hnd as [Hk0 Hnd].
    destruct (decide (k0 = k)) as [->|Hne].
    + apply elem_of_cons in Hin as [Heq|Hin]; [congruence|].
      exfalso. apply Hk0. apply list_elem_of_fmap. exists (k, v).
      split; [reflexivity | exact Hin].
    + apply elem_of_cons in Hin as [Heq|Hin]; [congruence|].
      exact (IH Hnd Hin).
Qed.
End DictFacts.

Section CounterProperties.
Context {pyfloat : PyFloat}.

Lemma record_all_snoc (rs : list Recording) (r : Recording)
    (s : BinarySearchService) :
  record_all (rs ++ [r]) s = record (record_all rs s) r.
Proof. unfold record_all. rewrite fold_left_app. reflexivity. Qed.

Lemma len_filter_snoc {A : Type} (P : A -> Prop) `{forall x, Decision (P x)}
    (l : list A) (x : A) :
  len (filter P (l ++ [x])) =
  len (filter P l) + (if decide (P x) then 1 else 0).
Proof.
  unfold len. rewrite filter_app, length_app.
  rewrite filter_cons, filter_nil.
  destruct (decide (P x)); simpl; lia.
Qed.

Lemma len_filter_nonneg {A : Type} (P : A -> Prop)
    `{forall x, Decision (P x)} (l : list A) :
  0 <= len (filter P l) <= len l.
Proof. unfold len. pose proof (length_filter P l). lia. Qed.

(** Property X11.
    After any run of recordings the three counters have grown by the
    number of recordings, of hits and of misses; every recording is one or
    the other, so a service whose counters start at 0 keeps
    total = successful + failed. Recording touches nothing but the
    statistics. *)
Theorem counters_count_recordings (rs : list Recording)
    (s : BinarySearchService) :
  let st := _search_stats s in
  let st' := _search_stats (record_all rs s) in
  total_searches st' = total_searches st + len rs /\
  successful_searches st' = successful_searches st + hits rs /\
  failed_searches st' = failed_searches st + misses rs /\
  hits rs + misses rs = len rs /\
  0 <= hits rs /\ 0 <= misses rs /\
  db (record_all rs s) = db s /\
  array_size (record_all rs s) = array_size s /\
  min_value (record_all rs s) = min_value s /\
  max_value (record_all rs s) = max_value s /\
  seed (record_all rs s) = seed s.
Proof.
  cbv zeta. induction rs as [|r rs IH] using rev_ind.
  - unfold hits, misses, len. simpl. repeat split; lia.
  - rewrite record_all_snoc.
    destruct IH as (Ht & Hs & Hf & Hsum & Hh & Hm & Hdb & H1 & H2 & H3 & H4).
    unfold hits, misses in *. rewrite !len_filter_snoc.
    cbn [record track_search set_search_stats _search_stats total_searches
         successful_searches failed_searches db array_size min_value
         max_value seed].
    rewrite Ht, Hs, Hf.
    pose proof (len_filter_nonneg (fun r => rec_found r = true) rs).
    pose proof (len_filter_nonneg (fun r => rec_found r = false) rs).
    unfold len in *. rewrite !length_app. cbn [length].
    destruct (rec_found r); repeat case_decide; try discriminate;
      try congruence; repeat split; try assumption; lia.
Qed.

Lemma frequency_tables_run (rs : list Recording)
    (s : BinarySearchService) (v : Z) (day : string) :
  dict_get (value_counts (_search_stats (record_all rs s))) v 0
  = dict_get (value_counts (_search_stats s)) v 0 + searches_for v rs /\
  dict_get (daily_counts (_search_stats (record_all rs s))) day 0
  = dict_get (daily_counts (_search_stats s)) day 0 + searches_on day rs.
Proof.
  induction rs as [|r rs [IHv IHd]] using rev_ind.
  - unfold searches_for, searches_on, len. simpl. split; lia.
  - rewrite record_all_snoc. unfold searches_for, searches_on in *.
    rewrite !len_filter_snoc.
    cbn [record track_search set_search_stats _search_stats value_counts
         daily_counts].
    split.
    + case_decide as Hv.
      * rewrite Hv, dict_get_set_eq, IHv. lia.
      * rewrite dict_get_set_ne by exact Hv. rewrite IHv. lia.
    + case_decide as Hd.
      * rewrite Hd, dict_get_set_eq, IHd. lia.
      * rewrite dict_get_set_ne by exact Hd. rewrite IHd. lia.
Qed.

(** Property X12.
    The two frequency tables count: after any run of recordings the entry
    of a value has grown by the number of recordings that searched for it,
    the entry of a day by the number of recordings made that day, and the
    snapshot's [searches_today] is the entry of the day it is asked on (0
    when the day has none). *)
Theorem frequency_tables_count_recordings (rs : list Recording)
    (s : BinarySearchService) (v : Z) (day : string) :
  let st := _search_stats s in
  let st' := _search_stats (record_all rs s) in
  dict_get (value_counts st') v 0
  = dict_get (value_counts st) v 0 + searches_for v rs /\
  dict_get (daily_counts st') day 0
  = dict_get (daily_counts st) day 0 + searches_on day rs /\
  searches_today (get_statistics day (record_all rs s))
  = dict_get (daily_counts st) day 0 + searches_on day rs.
Proof.
  cbv zeta. destruct (frequency_tables_run rs s v day) as [Hv Hd].
  repeat split; [exact Hv | exact Hd |].
  unfold get_statistics. cbn [searches_today]. exact Hd.
Qed.
End CounterProperties.

(** ** The most searched value *)

(** [max] with a key returns the first of the maximal items: everything
    before it is strictly smaller, nothing after it is larger. *)
Lemma max_by_count_first_maximal (best : Z * Z) (items : list (Z * Z)) :
  exists pre post,
    best :: items = pre ++ max_by_count best items :: post /\
    Forall (fun it => snd it < snd (max_by_count best items)) pre /\
    Forall (fun it => snd it <= snd (max_by_count best items)) post.
Proof.
  revert best. induction items as [|it rest IH]; intros best; simpl.
  - exists [], []. repeat split; constructor.
  - destruct (snd best <? snd it) eqn:Hlt.
    + apply Z.ltb_lt in Hlt.
      destruct (IH it) as (pre & post & Heq & Hpre & Hpost).
      exists (best :: pre), post. simpl. rewrite <- Heq.
      split; [reflexivity|]. split; [|exact Hpost].
      constructor; [|exact Hpre].
      destruct pre as [|p pre']; simpl in Heq; injection Heq as Hhd _.
      * rewrite <- Hhd. exact Hlt.
      * apply Forall_cons in Hpre as [Hp _]. rewrite <- Hhd in Hp. lia.
    + apply Z.ltb_ge in Hlt.
      destruct (IH best) as (pre & post & Heq & Hpre & Hpost).
      destruct pre as [|p pre']; simpl in Heq; injection Heq as Hhd Htl.
      * exists [], (it :: post). simpl. rewrite <- Hhd in Hpost |- *.
        split; [do 2 f_equal; exact Htl|]. split; [constructor|].
        constructor; [exact Hlt | exact Hpost].
      * exists (best :: it :: pre'), post. simpl.
        split; [do 2 f_equal; exact Htl|]. split; [|exact Hpost].
        apply Forall_cons in Hpre as [Hp Hpre]. rewrite <- Hhd in Hp.
        constructor; [exact Hp|]. constructor; [lia | exact Hpre].
Qed.

Section MostSearched.
Context {pyfloat : PyFloat}.

Lemma searches_for_pos (v : Z) (rs : list Recording) :
  1 <= searches_for v rs <-> v ∈ rec_value <$> rs.
Proof.
  unfold searches_for, len. split.
  - intros Hpos.
    destruct (filter (fun r => rec_value r = v) rs) as [|r l] eqn:Hf;
      [simpl in Hpos; lia|].
    assert (Hin : r ∈ filter (fun r => rec_value r = v) rs)
      by (rewrite Hf; left).
    apply list_elem_of_filter in Hin as [Hv Hin].
    apply list_elem_of_fmap. exists r. split; [symmetry; exact Hv | exact Hin].
  - intros Hin. apply list_elem_of_fmap in Hin as (r & Hv & Hin).
    assert (Hin' : r ∈ filter (fun r => rec_value r = v) rs)
      by (apply list_elem_of_filter; split; [symmetry; exact Hv | exact Hin]).
    destruct (filter (fun r => rec_value r = v) rs) as [|r' l];
      [apply elem_of_nil in Hin'; contradiction | simpl; lia].
Qed.

(** The keys of the value table are the values searched so far, each once. *)
Lemma value_counts_keys (d : RedisDatabase) (rs : list Recording) :
  NoDup (value_counts (_search_stats (record_all rs (init_service d)))).*1 /\
  forall k,
    k ∈ (value_counts (_search_stats (record_all rs (init_service d)))).*1
    <-> k ∈ rec_value <$> rs.
Proof.
  induction rs as [|r rs [IHnd IHin]] using rev_ind.
  - split; [constructor | intros k; reflexivity].
  - rewrite record_all_snoc.
    cbn [record track_search set_search_stats _search_stats value_counts].
    rewrite dict_set_keys, fmap_app. cbn [fmap list_fmap].
    case_decide as Hk.
    + split; [exact IHnd|]. intros k. rewrite elem_of_app, <- IHin.
      split; [intros H; left; exact H|].
      intros [H|H]; [exact H|].
      apply list_elem_of_singleton in H. subst k. exact Hk.
    + split.
      * apply NoDup_app. split; [exact IHnd|]. split; [|apply NoDup_singleton].
        intros k Hin Hin'. apply list_elem_of_singleton in Hin'. subst k.
        exact (Hk Hin).
      * intros k. rewrite !elem_of_app, <- IHin. reflexivity.
Qed.

Lemma value_counts_entries (d : RedisDatabase) (rs : list Recording)
    (k c : Z) :
  (k, c) ∈ value_counts (_search_stats (record_all rs (init_service d))) ->
  c = searches_for k rs.
Proof.
  intros Hin.
  destruct (value_counts_keys d rs) as [Hnd _].
  pose proof (dict_get_elem_of _ k c 0 Hnd Hin) as Hget.
  destruct (frequency_tables_run rs (init_service d) k "") as [Hv _].
  rewrite Hget in Hv. simpl in Hv. lia.
Qed.

(** A key that stands before another in the value table was first searched
    for before the other was. *)
Lemma value_counts_keys_in_search_order (d : RedisDatabase)
    (rs : list Recording) :
  forall (ks1 ks2 : list Z) (k k' : Z),
    (value_counts (_search_stats (record_all rs (init_service d)))).*1
    = ks1 ++ k :: ks2 ->
    k' ∈ ks2 ->
    exists rs1 r0 rs2,
      rs = rs1 ++ r0 :: rs2 /\ rec_value r0 = k /\
      Forall (fun r => rec_value r <> k') rs1.
Proof.
  induction rs as [|r rs IH] using rev_ind; intros ks1 ks2 k k' Hkeys Hk'.
  - simpl in Hkeys. destruct ks1; discriminate.
  - destruct (value_counts_keys d rs) as [_ Hin].
    rewrite record_all_snoc in Hkeys.
    cbn [record track_search set_search_stats _search_stats value_counts]
      in Hkeys.
    rewrite dict_set_keys in Hkeys.
    assert (Hextend : forall rs1 r0 rs2,
              rs = rs1 ++ r0 :: rs2 ->
              rs ++ [r] = rs1 ++ r0 :: (rs2 ++ [r])).
    { intros rs1 r0 rs2 ->. rewrite <- app_assoc. reflexivity. }
    case_decide as Hk.
    + destruct (IH ks1 ks2 k k' Hkeys Hk') as (rs1 & r0 & rs2 & Hrs & Hr0 & Hf).
      exists rs1, r0, (rs2 ++ [r]).
      split; [exact (Hextend _ _ _ Hrs)|]. split; [exact Hr0 | exact Hf].
    + destruct ks2 as [|x ks2 _] using rev_ind;
        [apply elem_of_nil in Hk'; contradiction|].
      change (ks1 ++ k :: ks2 ++ [x]) with (ks1 ++ (k :: ks2) ++ [x]) in Hkeys.
      rewrite app_assoc in Hkeys.
      apply app_inj_tail in Hkeys as [Hkeys Hx].
      apply elem_of_app in Hk' as [Hk'|Hk'].
      * destruct (IH ks1 ks2 k k' Hkeys Hk')
          as (rs1 & r0 & rs2 & Hrs & Hr0 & Hf).
        exists rs1, r0, (rs2 ++ [r]).
        split; [exact (Hextend _ _ _ Hrs)|]. split; [exact Hr0 | exact Hf].
      * apply list_elem_of_singleton in Hk'. subst x k'.
        assert (Hkin : k ∈ rec_value <$> rs).
        { apply Hin. rewrite Hkeys. apply elem_of_app. right. left. }
        apply list_elem_of_fmap in Hkin as (r0 & Hr0 & Hr0in).
        apply list_elem_of_split in Hr0in as (rs1 & rs2 & Hrs).
        exists rs1, r0, (rs2 ++ [r]).
        split; [exact (Hextend _ _ _ Hrs)|]. split; [symmetry; exact Hr0|].
        apply Forall_forall. intros r1 Hr1 Heq. apply Hk. apply Hin.
        apply list_elem_of_fmap. exists r1. split; [symmetry; exact Heq|].
        rewrite Hrs. apply elem_of_app. left. exact Hr1.
Qed.

(** Property X13.
    The snapshot's most searched value, on a service that started fresh:
    there is none exactly when nothing was recorded; otherwise it is a
    value searched at least once that no value was searched more often
    than, and among the values tied for that count it is the one that was
    searched first. *)
Theorem most_searched_value_is_most_frequent (d : RedisDatabase)
    (rs : list Recording) (today : string) :
  let ms := most_searched_value
              (get_statistics today (record_all rs (init_service d))) in
  (ms = None <-> rs = []) /\
  forall v, ms = Some v ->
    1 <= searches_for v rs /\
    (forall v', searches_for v' rs <= searches_for v rs) /\
    (forall v', v' <> v -> searches_for v' rs = searches_for v rs ->
       exists rs1 r0 rs2,
         rs = rs1 ++ r0 :: rs2 /\ rec_value r0 = v /\
         Forall (fun r => rec_value r <> v') rs1).
Proof.
  cbv zeta. unfold get_statistics. cbn [most_searched_value].
  destruct (value_counts_keys d rs) as [Hnd Hin].
  pose proof (value_counts_entries d rs) as Hent.
  pose proof (value_counts_keys_in_search_order d rs) as Hord.
  destruct (value_counts (_search_stats (record_all rs (init_service d))))
    as [|it rest] eqn:Hvc.
  - split; [|intros v Hv; discriminate Hv].
    split; [|reflexivity]. intros _.
    destruct rs as [|r rs']; [reflexivity|]. exfalso.
    assert (H : rec_value r ∈ rec_value <$> r :: rs') by (rewrite fmap_cons; left).
    apply Hin in H. apply elem_of_nil in H. exact H.
  - split.
    { split; [discriminate|]. intros ->. discriminate Hvc. }
    intros v Hv. injection Hv as Hv.
    destruct (max_by_count_first_maximal it rest)
      as (pre & post & Hsplit & Hpre & Hpost).
    destruct (max_by_count it rest) as [mv mc] eqn:Hmax.
    cbn [fst snd] in *. subst mv.
    assert (Hmc : mc = searches_for v rs).
    { apply Hent. rewrite Hsplit. apply elem_of_app. right. left. }
    assert (Hvin : v ∈ rec_value <$> rs).
    { apply Hin. rewrite Hsplit, fmap_app, fmap_cons. apply elem_of_app.
      right. left. }
    assert (Hentry : forall v', v' ∈ rec_value <$> rs ->
              (v', searches_for v' rs) ∈ pre ++ (v, mc) :: post).
    { intros v' Hv'. apply Hin in Hv'.
      apply list_elem_of_fmap in Hv' as ([k c] & Hk & Hkc). cbn [fst] in Hk.
      subst k. rewrite <- (Hent v' c Hkc), <- Hsplit. exact Hkc. }
    split; [apply searches_for_pos; exact Hvin|]. split.
    + intros v'. destruct (decide (v' ∈ rec_value <$> rs)) as [Hv'|Hv'].
      * apply Hentry in Hv'. apply elem_of_app in Hv' as [Hv'|Hv'].
        -- rewrite Forall_forall in Hpre. specialize (Hpre _ Hv').
           cbn [snd] in Hpre. lia.
        -- apply elem_of_cons in Hv' as [Hv'|Hv'].
           ++ injection Hv' as _ Hc. lia.
           ++ rewrite Forall_forall in Hpost. specialize (Hpost _ Hv').
              cbn [snd] in Hpost. lia.
      * assert (~ 1 <= searches_for v' rs)
          by (intros H; apply Hv', searches_for_pos; exact H).
        apply searches_for_pos in Hvin. lia.
    + intros v' Hne Heq.
      assert (Hv' : v' ∈ rec_value <$> rs).
      { apply searches_for_pos. rewrite Heq. apply searches_for_pos.
        exact Hvin. }
      apply (Hord pre.*1 post.*1 v v').
      * rewrite Hsplit, fmap_app, fmap_cons. reflexivity.
      * apply Hentry in Hv'. apply elem_of_app in Hv' as [Hv'|Hv'].
        -- rewrite Forall_forall in Hpre. specialize (Hpre _ Hv').
           cbn [snd] in Hpre. lia.
        -- apply elem_of_cons in Hv' as [Hv'|Hv'];
             [injection Hv' as Hv' _; contradiction|].
           apply list_elem_of_fmap. eexists. split; [|exact Hv']. reflexivity.
Qed.
End MostSearched.

(** * Properties of the routing layer *)

(** ** The checks of the array route *)

Lemma nondecreasing_is_sorted (arr : list Z) :
  nondecreasing arr -> is_sorted arr = true.
Proof.
  induction arr as [|x [|y rest] IH]; intros Hnd; try reflexivity.
  cbn [is_sorted]. apply andb_true_iff. split.
  - apply Z.leb_le. exact (Hnd 0%nat x y eq_refl eq_refl).
  - apply IH. exact (nondecreasing_tail x (y :: rest) Hnd).
Qed.

Lemma fold_left_min_spec (rest : list Z) (x : Z) :
  fold_left Z.min rest x ∈ x :: rest /\
  forall y, y ∈ x :: rest -> fold_left Z.min rest x <= y.
Proof.
  revert x. induction rest as [|z rest IH]; intros x; simpl.
  - split; [left|]. intros y Hy. apply list_elem_of_singleton in Hy. lia.
  - destruct (IH (Z.min x z)) as [Hin Hle]. split.
    + apply elem_of_cons in Hin as [Heq|Hin].
      * rewrite Heq. destruct (Z.min_spec x z) as [[_ ->]|[_ ->]];
          [left | right; left].
      * right. right. exact Hin.
    + intros y Hy.
      assert (Hm : fold_left Z.min rest (Z.min x z) <= Z.min x z)
        by (apply Hle; left).
      apply elem_of_cons in Hy as [->|Hy]; [lia|].
      apply elem_of_cons in Hy as [->|Hy]; [lia|].
      apply Hle. right. exact Hy.
Qed.

Lemma fold_left_max_spec (rest : list Z) (x : Z) :
  fold_left Z.max rest x ∈ x :: rest /\
  forall y, y ∈ x :: rest -> y <= fold_left Z.max rest x.
Proof.
  revert x. induction rest as [|z rest IH]; intros x; simpl.
  - split; [left|]. intros y Hy. apply list_elem_of_singleton in Hy. lia.
  - destruct (IH (Z.max x z)) as [Hin Hle]. split.
    + apply elem_of_cons in Hin as [Heq|Hin].
      * rewrite Heq. destruct (Z.max_spec x z) as [[_ ->]|[_ ->]];
          [right; left | left].
      * right. right. exact Hin.
    + intros y Hy.
      assert (Hm : Z.max x z <= fold_left Z.max rest (Z.max x z))
        by (apply Hle; left).
      apply elem_of_cons in Hy as [->|Hy]; [lia|].
      apply elem_of_cons in Hy as [->|Hy]; [lia|].
      apply Hle. right. exact Hy.
Qed.

Section RouteFacts.
Context {prng : PRNG} {pyfloat : PyFloat}.

(** [get_array] leaves the defaults and the statistics as they are. *)
Lemma get_array_keeps_service (now : string) (w : World) :
  array_size (self (snd (get_array now w))) = array_size (self w) /\
  min_value (self (snd (get_array now w))) = min_value (self w) /\
  max_value (self (snd (get_array now w))) = max_value (self w) /\
  seed (self (snd (get_array now w))) = seed (self w) /\
  _search_stats (self (snd (get_array now w))) = _search_stats (self w).
Proof.
  rewrite get_array_run. cbv zeta.
  destruct (not_array (kv_array (db (self w))));
    [destruct (min_value (self w) >=? max_value (self w))|];
    repeat split.
Qed.

(** [search] leaves the state [get_array] left. *)
Lemma search_state (now : string) (t : Z) (w : World) :
  snd (search now t w) = snd (get_array now w).
Proof.
  destruct (get_array now w) as [[[|x rest]|e] w1] eqn:Hget.
  - rewrite (search_on_empty_array now t w _ Hget). reflexivity.
  - destruct (search_after_get_array now t w _ (x :: rest) Hget
                ltac:(discriminate)) as (first & last & i & _ & _ & _ & Hs).
    rewrite Hs. reflexivity.
  - rewrite (search_on_get_array_error now t w _ _ Hget). reflexivity.
Qed.

Lemma get_array_source_run (w : World) :
  get_array_source w =
  (Ok match kv_metadata (db (self w)) with
      | Some m =>
          if bool_decide (m = ∅) then JStr "generated"
          else default (JStr "unknown") (m !! "source")
      | None => JStr "generated"
      end, connected w).
Proof.
  unfold get_array_source, bind. rewrite load_array_metadata_run.
  destruct (kv_metadata (db (self w))) as [m|]; [|reflexivity].
  destruct (bool_decide (m = ∅)); reflexivity.
Qed.
End RouteFacts.

Section SearchRoute.
Context {prng : PRNG} {pyfloat : PyFloat}.

Lemma search_outcome_bounds (now : string) (t : Z) (w w' : World)
    (out : SearchOutcome) :
  search now t w = (Ok out, w') ->
  -1 <= index out /\ 1 <= out_array_size out.
Proof.
  intros Hs.
  destruct (get_array now w) as [[[|x rest]|e] w1] eqn:Hget.
  - rewrite (search_on_empty_array now t w _ Hget) in Hs. discriminate.
  - destruct (search_after_get_array now t w _ (x :: rest) Hget
                ltac:(discriminate)) as (first & last & i & _ & _ & Hi & Hs').
    rewrite Hs' in Hs. injection Hs as <- _. cbn [index out_array_size].
    destruct (_binary_search_returns (x :: rest) t) as [i' [Hi' Hp]].
    assert (i' = i) by congruence. subst i'.
    split; [|unfold len; simpl length; lia].
    destruct ((t <? first) || (t >? last)); [lia|].
    destruct Hp as [->|[Hr _]]; lia.
  - rewrite (search_on_get_array_error now t w _ _ Hget) in Hs. discriminate.
Qed.

(** Property X14.
    The search route answers with a body exactly when [search] returns an
    outcome, and then records that one search in the statistics; the
    response model never rejects the outcome. When [search] raises, the
    bounds-check [ValueError] is answered with 400 and its message, the
    [IndexError] with 500, and the statistics stay as they were. In every
    case the store is left as [search] left it. *)
Theorem search_value_records_exactly_the_answers (now today : string)
    (search_time : float) (v : Z) (w : World) :
  let resp := fst (search_value now today search_time v w) in
  let w' := snd (search_value now today search_time v w) in
  db (self w') = db (self (snd (search now v w))) /\
  match fst (search now v w) with
  | Ok out =>
      resp = Returns {| resp_found := found out;
                        resp_index := index out;
                        resp_value := v;
                        resp_array_size := out_array_size out;
                        resp_array_min := Some (array_min out);
                        resp_array_max := Some (array_max out);
                        resp_search_time_ms := Some search_time |} /\
      _search_stats (self w')
      = _search_stats (record (self w)
                         {| rec_value := v; rec_found := found out;
                            rec_time := search_time; rec_today := today |})
  | Raise (ValueError msg) =>
      resp = HTTPException 400 (Message msg) /\
      _search_stats (self w') = _search_stats (self w)
  | Raise (IndexError msg) =>
      resp = HTTPException 500 (Prefixed "Search failed: " (Message msg)) /\
      _search_stats (self w') = _search_stats (self w)
  end.
Proof.
  cbv zeta.
  pose proof (search_state now v w) as Hstate.
  destruct (get_array_keeps_service now w) as (_ & _ & _ & _ & Hstats).
  rewrite <- Hstate in Hstats.
  unfold search_value.
  destruct (search now v w) as [[out|[msg|msg]] w1] eqn:Hs;
    cbn [fst snd] in *.
  - destruct (search_outcome_bounds now v w w1 out Hs) as [Hi Hsz].
    unfold SearchResponse_valid. cbn [resp_index resp_array_size].
    assert (Hv : (-1 <=? index out) && (0 <=? out_array_size out) = true).
    { apply andb_true_iff. split; apply Z.leb_le; lia. }
    rewrite Hv. cbn [fst snd self].
    split; [reflexivity|]. split; [reflexivity|].
    cbn [record track_search set_search_stats _search_stats rec_value
         rec_found rec_time rec_today].
    rewrite Hstats. reflexivity.
  - repeat split. exact Hstats.
  - repeat split. exact Hstats.
Qed.
End SearchRoute.

Section ArrayRoute.
Context {prng : PRNG} {pyfloat : PyFloat}.

(** Property X15.
    A body of the array route describes the array the store holds after
    the call: its length; on a non-empty array its least and greatest
    element, and a sortedness flag that is true exactly when the array is
    non-decreasing; on an empty array no minimum, maximum or flag. The
    source it reports is the one [get_array_source] gives. *)
Theorem get_array_route_describes_the_stored_array (now : string)
    (w w' : World) (r : ArrayResponse) :
  get_array_route now w = (Returns r, w') ->
  kv_array (db (self w')) = Some (arr_array r) /\
  arr_size r = len (arr_array r) /\
  (exists tag, arr_source r = Some tag /\
               fst (get_array_source w') = Ok (JStr tag)) /\
  (arr_array r = [] ->
   arr_min_value r = None /\ arr_max_value r = None /\
   arr_is_sorted r = None) /\
  (arr_array r <> [] ->
   exists mn mx,
     arr_min_value r = Some mn /\ arr_max_value r = Some mx /\
     mn ∈ arr_array r /\ mx ∈ arr_array r /\
     (forall x, x ∈ arr_array r -> mn <= x <= mx) /\
     arr_is_sorted r = Some (is_sorted (arr_array r)) /\
     (arr_is_sorted r = Some true <-> nondecreasing (arr_array r))).
Proof.
  unfold get_array_route, bind.
  destruct (get_array now w) as [[A|e] w1] eqn:Hget; [|discriminate].
  rewrite get_array_source_run. unfold ret.
  pose proof (get_array_returns_stored now w w1 A Hget) as Hst.
  destruct (match kv_metadata (db (self w1)) with
            | Some m =>
                if bool_decide (m = ∅) then JStr "generated"
                else default (JStr "unknown") (m !! "source")
            | None => JStr "generated"
            end) as [n|tag] eqn:Hsrc; [discriminate|].
  unfold ArrayResponse_valid. cbn [arr_size].
  assert (Hlen : (0 <=? len A) = true) by (apply Z.leb_le; unfold len; lia).
  rewrite Hlen. intros H. injection H as <- <-.
  cbn [arr_array arr_size arr_source arr_min_value arr_max_value
       arr_is_sorted connected with_db self db kv_array].
  split; [exact Hst|]. split; [reflexivity|]. split.
  { exists tag. split; [reflexivity|]. rewrite get_array_source_run.
    cbn [fst connected with_db self db kv_metadata]. rewrite Hsrc.
    reflexivity. }
  split.
  - intros ->. repeat split.
  - intros Hne. destruct A as [|x rest]; [congruence|].
    destruct (fold_left_min_spec rest x) as [Hmin Hmin'].
    destruct (fold_left_max_spec rest x) as [Hmax Hmax'].
    exists (fold_left Z.min rest x), (fold_left Z.max rest x).
    cbn [py_min py_max].
    split; [reflexivity|]. split; [reflexivity|].
    split; [exact Hmin|]. split; [exact Hmax|].
    split; [intros y Hy; split; [apply Hmin' | apply Hmax']; exact Hy|].
    split; [reflexivity|]. split.
    + intros H. injection H as H. apply is_sorted_nondecreasing. exact H.
    + intros Hnd. rewrite (nondecreasing_is_sorted _ Hnd). reflexivity.
Qed.
End ArrayRoute.

(** ** The application while it serves *)

Lemma py_or_within (lo hi : Z) (p : option Z) (d : Z) :
  within lo hi p -> lo <= d <= hi -> lo <= py_or p d <= hi.
Proof.
  destruct p as [n|]; simpl; [|tauto].
  intros Hn Hd. destruct (n =? 0); lia.
Qed.

Section ServingFacts.
Context {prng : PRNG} {pyfloat : PyFloat}.

Lemma generated_nonempty (size min_val max_val seed' : Z) :
  1 <= size -> generated size min_val max_val seed' <> [].
Proof.
  intros Hsz Hnil.
  pose proof (generated_length size min_val max_val seed') as Hlen.
  rewrite Hnil in Hlen. simpl in Hlen. lia.
Qed.

Lemma serving_connected (w : World) : Serving w -> Serving (connected w).
Proof. intros H. exact H. Qed.

(** While serving, a search is answered with a body that is exact for the
    stored array, and the application keeps serving. *)
Lemma serving_search (now today : string) (search_time : float) (v : Z)
    (w : World) (A : list Z) :
  Serving w -> kv_array (db (self w)) = Some A ->
  exists r,
    fst (search_value now today search_time v w) = Returns r /\
    (resp_found r = true <-> v ∈ A) /\
    resp_value r = v /\ resp_array_size r = len A /\
    kv_array (db (self (snd (search_value now today search_time v w))))
    = Some A /\
    Serving (snd (search_value now today search_time v w)).
Proof.
  intros (Harr & Hsrc & Hsz & Hs0 & Hf0 & Htot) HA.
  destruct Harr as (A' & HA' & Hne & Hnd).
  assert (A' = A) by congruence. subst A'.
  destruct A as [|x rest]; [congruence|].
  pose proof (get_array_loaded now w x rest HA) as Hget.
  destruct (search_found_iff_elem now v w _ (x :: rest) Hget Hne Hnd)
    as (out & Hs & Hiff & Hlen).
  destruct (search_outcome_bounds now v w _ out Hs) as [Hi Hn].
  unfold search_value. rewrite Hs.
  unfold SearchResponse_valid. cbn [resp_index resp_array_size].
  assert (Hv : (-1 <=? index out) && (0 <=? out_array_size out) = true)
    by (apply andb_true_iff; split; apply Z.leb_le; lia).
  rewrite Hv. cbn [fst snd]. eexists. split; [reflexivity|].
  cbn [resp_found resp_value resp_array_size self db track_search
       set_search_stats connected with_db kv_array].
  split; [exact Hiff|]. split; [reflexivity|]. split; [exact Hlen|].
  split; [exact HA|].
  split; [exists (x :: rest); split; [exact HA | split; assumption]|].
  split; [exact Hsrc|]. split; [exact Hsz|].
  simpl. destruct (found out); repeat split; lia.
Qed.

(** While serving, the array route answers with a body: the stored array,
    flagged as sorted. *)
Lemma serving_array (now : string) (w : World) (A : list Z) :
  Serving w -> kv_array (db (self w)) = Some A ->
  exists r,
    get_array_route now w = (Returns r, connected w) /\
    arr_array r = A /\ arr_is_sorted r = Some true.
Proof.
  intros (Harr & Hsrc & _) HA.
  destruct Harr as (A' & HA' & Hne & Hnd).
  assert (A' = A) by congruence. subst A'.
  destruct A as [|x rest]; [congruence|].
  unfold get_array_route, bind.
  rewrite (get_array_loaded now w x rest HA), get_array_source_run.
  unfold ret. cbn [connected with_db self db kv_metadata].
  assert (Htag : exists tag,
            match kv_metadata (db (self w)) with
            | Some m =>
                if bool_decide (m = ∅) then JStr "generated"
                else default (JStr "unknown") (m !! "source")
            | None => JStr "generated"
            end = JStr tag).
  { destruct (kv_metadata (db (self w))) as [m|] eqn:Hm; [|eexists; reflexivity].
    destruct (bool_decide (m = ∅)); [eexists; reflexivity|].
    destruct (m !! "source") as [s|] eqn:Hs; [|eexists; reflexivity].
    destruct (Hsrc m s eq_refl Hs) as [tag ->]. exists tag. reflexivity. }
  destruct Htag as [tag ->].
  unfold ArrayResponse_valid. cbn [arr_size].
  assert (Hlen : (0 <=? len (x :: rest)) = true)
    by (apply Z.leb_le; unfold len; lia).
  rewrite Hlen. eexists. split; [reflexivity|].
  cbn [arr_array arr_is_sorted]. split; [reflexivity|].
  rewrite (nondecreasing_is_sorted _ Hnd). reflexivity.
Qed.

(** While serving, a reset that passes its model is answered with the
    success message when the effective bounds pass the check, and with the
    400 of the check otherwise, in which case the store is untouched;
    either way the application keeps serving. *)
Lemma serving_reset (now : string) (request : option ResetRequest)
    (w : World) :
  Serving w ->
  match request with Some r => ResetRequest_valid r | None => True end ->
  (fst (reset_array_route now request w)
   = Returns "Array reset successfully" \/
   (fst (reset_array_route now request w)
    = HTTPException 400 (Message "min_value must be less than max_value") /\
    db (self (snd (reset_array_route now request w))) = db (self w))) /\
  Serving (snd (reset_array_route now request w)).
Proof.
  intros (Harr & Hsrc & Hsz & Hs0 & Hf0 & Htot) Hvalid.
  unfold reset_array_route.
  set (sz := match request with Some r => req_new_size r | None => None end).
  set (mn := match request with Some r => req_min_value r | None => None end).
  set (mx := match request with Some r => req_max_value r | None => None end).
  set (sd := match request with Some r => req_seed r | None => None end).
  assert (Hcall :
    match request with
    | Some r => reset_array now (req_new_size r) (req_min_value r)
                  (req_max_value r) (req_seed r) w
    | None => reset_array now None None None None w
    end = reset_array now sz mn mx sd w)
    by (destruct request; reflexivity).
  rewrite Hcall. clear Hcall.
  assert (Hsize : 10 <= py_or sz (array_size (self w)) <= 1000).
  { apply py_or_within; [|exact Hsz].
    destruct request as [r|]; [exact (proj1 Hvalid) | exact I]. }
  rewrite reset_array_run. cbv zeta.
  cbn [with_defaults self array_size min_value max_value seed].
  destruct (py_or mn (min_value (self w)) >=? py_or mx (max_value (self w))).
  - cbn [fst snd with_defaults self db]. split.
    + right. split; reflexivity.
    + split; [exact Harr|]. split; [exact Hsrc|]. split; [exact Hsize|].
      repeat split; assumption.
  - cbn [fst snd with_db self db kv_array kv_metadata array_size
         _search_stats]. split; [left; reflexivity|].
    split.
    { eexists. split; [reflexivity|].
      split; [apply generated_nonempty; lia | apply sorted_nondecreasing]. }
    split.
    { intros md v Hmd Hv. injection Hmd as <-.
      assert (Hsource : reset_metadata now
                (generated (py_or sz (array_size (self w)))
                   (py_or mn (min_value (self w)))
                   (py_or mx (max_value (self w)))
                   (py_or sd (seed (self w))))
                (py_or mn (min_value (self w)))
                (py_or mx (max_value (self w)))
                (py_or sd (seed (self w))) !! "source"
              = Some (JStr "regenerated")) by reflexivity.
      rewrite Hsource in Hv. injection Hv as <-. eexists. reflexivity. }
    split; [exact Hsize|]. repeat split; assumption.
Qed.

(** While serving, the statistics route answers with a body, whose
    counters add up, and changes nothing. *)
Lemma serving_stats (today : string) (w : World) :
  Serving w ->
  exists r,
    get_statistics_route today w = (Returns r, w) /\
    stat_total_searches r
    = stat_successful_searches r + stat_failed_searches r /\
    stat_total_searches r = total_searches (_search_stats (self w)).
Proof.
  intros (_ & _ & _ & Hs0 & Hf0 & Htot).
  unfold get_statistics_route. cbv zeta.
  unfold StatsResponse_valid, get_statistics.
  cbn [stat_total_searches stat_successful_searches stat_failed_searches
       stats].
  assert (Hv : (0 <=? total_searches (_search_stats (self w)))
               && (0 <=? successful_searches (_search_stats (self w)))
               && (0 <=? failed_searches (_search_stats (self w))) = true).
  { rewrite !andb_true_iff. repeat split; apply Z.leb_le; lia. }
  rewrite Hv. eexists. split; [reflexivity|].
  cbn [stat_total_searches stat_successful_searches stat_failed_searches].
  split; [exact Htot | reflexivity].
Qed.

Lemma handle_step_ok (req : Request) (w : World) :
  Serving w -> Request_valid req ->
  Serving (snd (handle req w)) /\ no_server_error (fst (handle req w)).
Proof.
  intros Hserving Hvalid.
  pose proof Hserving as ((A & HA & _) & _).
  destruct req as [v now today st|now|request now|today];
    cbn [handle]; unfold with_body.
  - destruct (serving_search now today st v w A Hserving HA)
      as (r & Hr & _ & _ & _ & _ & Hs').
    destruct (search_value now today st v w) as [resp w'].
    cbn [fst snd] in *. subst resp. split; [exact Hs' | exact I].
  - destruct (serving_array now w A Hserving HA) as (r & Hr & _).
    rewrite Hr. split; [exact (serving_connected w Hserving) | exact I].
  - assert (Hv : match request with
                 | Some r => ResetRequest_valid r
                 | None => True
                 end) by (destruct request; exact Hvalid).
    destruct (serving_reset now request w Hserving Hv) as [Hresp Hs'].
    destruct (reset_array_route now request w) as [resp w'].
    cbn [fst snd] in *.
    destruct Hresp as [->|[-> _]]; (split; [exact Hs'|]);
      [exact I | split; reflexivity].
  - destruct (serving_stats today w Hserving) as (r & Hr & _).
    rewrite Hr. split; [exact Hserving | exact I].
Qed.
End ServingFacts.

Section ServingProperties.
Context {prng : PRNG} {pyfloat : PyFloat}.

(** Property X16.
    Startup over a store that holds nothing, or an array that is sorted
    (with a source tag, if any, that is a string): the start-up hook
    returns and the application is serving. *)
Theorem startup_event_starts_serving (d : RedisDatabase) (g : rng_state)
    (now : string) :
  (forall A, kv_array d = Some A -> nondecreasing A) ->
  (forall md v,
      kv_metadata d = Some md -> md !! "source" = Some v ->
      exists tag, v = JStr tag) ->
  exists w',
    startup_event now {| self := init_service d; random := g |}
    = (Ok tt, w') /\
    Serving w'.
Proof.
  intros Hsorted Hsrc. unfold startup_event, bind.
  set (w := {| self := init_service d; random := g |}).
  destruct (not_array (kv_array d)) eqn:Hnot.
  - rewrite (initialize_array_generates now w Hnot). cbv zeta.
    cbn [w self init_service min_value max_value array_size seed].
    change (1 >=? 1000) with false. cbv iota.
    eexists. split; [reflexivity|].
    unfold Serving.
    cbn [with_db self db kv_array kv_metadata array_size _search_stats
         init_service successful_searches failed_searches total_searches].
    split.
    { eexists. split; [reflexivity|].
      split; [apply generated_nonempty; lia | apply sorted_nondecreasing]. }
    split.
    { intros md v Hmd Hv. injection Hmd as <-.
      assert (Hsource : initial_metadata now (generated 100 1 1000 42)
                          (init_service d) !! "source"
                        = Some (JStr "generated")) by reflexivity.
      rewrite Hsource in Hv. injection Hv as <-. eexists. reflexivity. }
    repeat split; lia.
  - destruct (kv_array d) as [[|x rest]|] eqn:Hst; try discriminate.
    rewrite (initialize_array_loaded now w x rest Hst).
    eexists. split; [reflexivity|].
    unfold Serving.
    cbn [connected with_db w self db kv_array kv_metadata array_size
         _search_stats init_service successful_searches failed_searches
         total_searches].
    split.
    { exists (x :: rest). split; [exact Hst|].
      split; [discriminate | exact (Hsorted _ eq_refl)]. }
    split; [exact Hsrc|]. repeat split; lia.
Qed.

(** Property X17.
    While the application is serving, each request that passes its model
    is answered as follows, and the application keeps serving. A search
    gets a body whose [found] flag is true exactly when the value occurs
    in the stored array. The array route returns the stored array, flagged
    as sorted. A reset gets the success message, or the 400 of the bounds
    check with the store untouched. The statistics route gets a body whose
    counters add up, and changes nothing. *)
Theorem handle_answers_while_serving (req : Request) (w : World)
    (A : list Z) :
  Serving w -> Request_valid req -> kv_array (db (self w)) = Some A ->
  Serving (snd (handle req w)) /\
  match req with
  | PostSearch v _ _ _ =>
      exists r,
        fst (handle req w) = Returns (SearchBody r) /\
        (resp_found r = true <-> v ∈ A) /\
        resp_value r = v /\ resp_array_size r = len A /\
        kv_array (db (self (snd (handle req w)))) = Some A
  | GetArray _ =>
      exists r,
        fst (handle req w) = Returns (ArrayBody r) /\
        arr_array r = A /\ arr_is_sorted r = Some true /\
        kv_array (db (self (snd (handle req w)))) = Some A
  | PostReset _ _ =>
      fst (handle req w) = Returns (ResetBody "Array reset successfully") \/
      (fst (handle req w)
       = HTTPException 400 (Message "min_value must be less than max_value")
       /\ db (self (snd (handle req w))) = db (self w))
  | GetStats _ =>
      exists r,
        handle req w = (Returns (StatsBody r), w) /\
        stat_total_searches r
        = stat_successful_searches r + stat_failed_searches r
  end.
Proof.
  intros Hserving Hvalid HA.
  split; [exact (proj1 (handle_step_ok req w Hserving Hvalid))|].
  destruct req as [v now today st|now|request now|today];
    cbn [handle]; unfold with_body.
  - destruct (serving_search now today st v w A Hserving HA)
      as (r & Hr & Hiff & Hval & Hsz & Hst & _).
    destruct (search_value now today st v w) as [resp w'].
    cbn [fst snd] in *. subst resp. exists r. repeat split; tauto.
  - destruct (serving_array now w A Hserving HA) as (r & Hr & Ha & Hs).
    rewrite Hr. exists r. repeat split; assumption.
  - assert (Hv : match request with
                 | Some r => ResetRequest_valid r
                 | None => True
                 end) by (destruct request; exact Hvalid).
    destruct (serving_reset now request w Hserving Hv) as [Hresp _].
    destruct (reset_array_route now request w) as [resp w'].
    cbn [fst snd] in *.
    destruct Hresp as [->|[-> Hdb]];
      [left; reflexivity | right; split; [reflexivity | exact Hdb]].
  - destruct (serving_stats today w Hserving) as (r & Hr & Hsum & _).
    rewrite Hr. exists r. split; [reflexivity | exact Hsum].
Qed.

(** Property X18.
    A serving application answers any sequence of requests that pass
    their models, one answer each, without a single server error (the only
    error answer is the 400 of a rejected reset), and is still serving at
    the end. *)
Theorem serve_never_answers_with_a_server_error (reqs : list Request)
    (w : World) :
  Serving w -> Forall Request_valid reqs ->
  Serving (snd (serve reqs w)) /\
  Forall no_server_error (fst (serve reqs w)) /\
  length (fst (serve reqs w)) = length reqs.
Proof.
  revert w. induction reqs as [|req reqs IH]; intros w Hserving Hvalid.
  - split; [exact Hserving|]. split; [constructor | reflexivity].
  - apply Forall_cons in Hvalid as [Hreq Hreqs].
    destruct (handle_step_ok req w Hserving Hreq) as [Hs1 Hok].
    cbn [serve]. destruct (handle req w) as [resp w1]. cbn [fst snd] in *.
    destruct (IH w1 Hs1 Hreqs) as (Hs2 & Hall & Hlen).
    destruct (serve reqs w1) as [resps w2]. cbn [fst snd length] in *.
    split; [exact Hs2|]. split; [constructor; assumption | lia].
Qed.
End ServingProperties.

(** ** Falsy parameters and a cleared store *)

Lemma py_or_zero_as_absent (p : option Z) (d : Z) :
  py_or (zero_as_absent p) d = py_or p d.
Proof.
  destruct p as [n|]; [|reflexivity]. simpl.
  destruct (n =? 0) eqn:Hn; simpl; [reflexivity | rewrite Hn; reflexivity].
Qed.

Section FalsyParameters.
Context {prng : PRNG} {pyfloat : PyFloat}.

(** Property X10.
    A [0] passed for a parameter is treated exactly as the parameter left
    out, by generation and by reset alike: result, stored defaults,
    stored array and metadata are the same. So no reset can set a size, a
    bound or a seed to 0. *)
Theorem zero_parameter_is_an_absent_parameter (now : string)
    (size min_value' max_value' seed' : option Z) (w : World) :
  _generate_array (zero_as_absent size) (zero_as_absent min_value')
    (zero_as_absent max_value') (zero_as_absent seed') w
  = _generate_array size min_value' max_value' seed' w /\
  reset_array now (zero_as_absent size) (zero_as_absent min_value')
    (zero_as_absent max_value') (zero_as_absent seed') w
  = reset_array now size min_value' max_value' seed' w /\
  array_size (self (snd (reset_array now (Some 0) min_value' max_value'
                           seed' w))) = array_size (self w) /\
  min_value (self (snd (reset_array now size (Some 0) max_value'
                          seed' w))) = min_value (self w) /\
  max_value (self (snd (reset_array now size min_value' (Some 0)
                          seed' w))) = max_value (self w) /\
  seed (self (snd (reset_array now size min_value' max_value'
                     (Some 0) w))) = seed (self w).
Proof.
  rewrite !reset_array_run, !_generate_array_run. cbv zeta.
  unfold with_defaults. cbn [self array_size min_value max_value seed].
  rewrite !py_or_zero_as_absent.
  split; [reflexivity|]. split; [reflexivity|].
  repeat split;
    match goal with
    | |- context [if ?c then _ else _] => destruct c; reflexivity
    end.
Qed.

(** Property X9.
    Clearing the store removes both keys. The source then reads
    ["generated"], and the next [get_array] (when the defaults pass the
    bounds check) generates the array anew from the current defaults and
    seed and stores it with fresh metadata, so what comes back depends on
    the defaults alone, not on what was cleared. *)
Theorem clear_data_then_get_array_regenerates (now : string) (w : World) :
  min_value (self w) < max_value (self w) ->
  exists w1 w2,
    clear_data w = (Ok tt, w1) /\
    kv_array (db (self w1)) = None /\
    kv_metadata (db (self w1)) = None /\
    fst (get_array_source w1) = Ok (JStr "generated") /\
    get_array now w1
    = (Ok (generated (array_size (self w)) (min_value (self w))
                     (max_value (self w)) (seed (self w))), w2) /\
    kv_array (db (self w2))
    = Some (generated (array_size (self w)) (min_value (self w))
                      (max_value (self w)) (seed (self w))) /\
    fst (get_array_source w2) = Ok (JStr "generated") /\
    _search_stats (self w2) = _search_stats (self w).
Proof.
  intros Hlt.
  assert (Hge : (min_value (self w) >=? max_value (self w)) = false)
    by (rewrite Z.geb_leb; apply Z.leb_gt; exact Hlt).
  unfold clear_data, bind. rewrite ensure_client_run.
  eexists _, _. split; [reflexivity|].
  cbn [put_db get_db connected with_db self db kv_array kv_metadata fst snd].
  split; [reflexivity|]. split; [reflexivity|].
  split; [rewrite get_array_source_run; reflexivity|].
  rewrite get_array_run. cbv zeta.
  cbn [self db kv_array not_array array_size min_value max_value seed].
  rewrite Hge.
  split; [reflexivity|]. split; [reflexivity|].
  split; [rewrite get_array_source_run; reflexivity | reflexivity].
Qed.
End FalsyParameters.

(** * Concrete runs of the further properties *)

Lemma loaded_world_serving : Serving loaded_world.
Proof.
  unfold Serving. cbn.
  split.
  { exists [1; 3; 5; 7; 9]. split; [reflexivity|].
    split; [discriminate | apply is_sorted_nondecreasing; reflexivity]. }
  split.
  { intros md v Hmd Hv. injection Hmd as <-.
    assert (Hs : ({[ "source" := JStr "regenerated" ]} : gmap string jval)
                 !! "source" = Some (JStr "regenerated")) by reflexivity.
    rewrite Hs in Hv. injection Hv as <-. eexists. reflexivity. }
  repeat split; lia.
Qed.

Lemma sample_requests_valid : Forall Request_valid sample_requests.
Proof.
  unfold sample_requests.
  repeat constructor; cbn; unfold SearchRequest_valid; try lia.
Qed.

Example sample_requests_answers :
  map status_code_of (fst (serve sample_requests loaded_world))
  = [200; 400; 200; 200; 200] /\
  total_searches (_search_stats (self (snd (serve sample_requests
                                              loaded_world)))) = 1.
Proof. vm_compute. split; reflexivity. Qed.

Lemma search_short_circuits_outside_bounds_witness :
  kv_array (db (self loaded_world)) = Some [1; 3; 5; 7; 9] /\
  [1; 3; 5; 7; 9] !! 0%nat = Some 1 /\
  [1; 3; 5; 7; 9] !! (length [1; 3; 5; 7; 9] - 1)%nat = Some 9 /\
  (0 < 1 \/ 0 > 9) /\
  search "2026-01-01T00:00:00" 0 loaded_world =
  (Ok {| found := false; index := -1; value := 0;
         out_array_size := len [1; 3; 5; 7; 9];
         array_min := 1; array_max := 9 |}, connected loaded_world).
Proof.
  assert (H1 : kv_array (db (self loaded_world)) = Some [1; 3; 5; 7; 9])
    by reflexivity.
  assert (H2 : [1; 3; 5; 7; 9] !! 0%nat = Some 1) by reflexivity.
  assert (H3 : [1; 3; 5; 7; 9] !! (length [1; 3; 5; 7; 9] - 1)%nat = Some 9)
    by reflexivity.
  assert (H4 : 0 < 1 \/ 0 > 9) by (left; reflexivity).
  exact (conj H1 (conj H2 (conj H3 (conj H4
           (search_short_circuits_outside_bounds "2026-01-01T00:00:00"
              loaded_world [1; 3; 5; 7; 9] 1 9 0 H1 H2 H3 H4))))).
Defined.

Lemma search_outcome_well_formed_witness :
  search "2026-01-01T00:00:00" 7 loaded_world
  = (Ok loaded_outcome, connected loaded_world) /\
  exists A,
    kv_array (db (self (connected loaded_world))) = Some A /\
    value loaded_outcome = 7 /\
    out_array_size loaded_outcome = len A /\
    1 <= out_array_size loaded_outcome /\
    getitem A 0 = Ok (array_min loaded_outcome) /\
    getitem A (-1) = Ok (array_max loaded_outcome) /\
    -1 <= index loaded_outcome < len A /\
    found loaded_outcome = negb (index loaded_outcome =? -1) /\
    (found loaded_outcome = true ->
     getitem A (index loaded_outcome) = Ok 7).
Proof.
  assert (H1 : search "2026-01-01T00:00:00" 7 loaded_world
               = (Ok loaded_outcome, connected loaded_world))
    by reflexivity.
  exact (conj H1
           (search_outcome_well_formed "2026-01-01T00:00:00" 7 loaded_world
              (connected loaded_world) loaded_outcome H1)).
Defined.

Lemma generated_array_length_and_range_witness :
  randint_in_range lcg_prng /\
  py_or (Some 1) (min_value (self fresh_world)) <
  py_or (Some 10) (max_value (self fresh_world)) /\
  exists arr w',
    _generate_array (Some 10) (Some 1) (Some 10) (Some 1) fresh_world
    = (Ok arr, w') /\
    len arr = Z.max 0 (py_or (Some 10) (array_size (self fresh_world))) /\
    (forall x, x ∈ arr ->
       py_or (Some 1) (min_value (self fresh_world)) <= x
       <= py_or (Some 10) (max_value (self fresh_world))) /\
    self w' = self fresh_world.
Proof.
  assert (H1 : py_or (Some 1) (min_value (self fresh_world)) <
               py_or (Some 10) (max_value (self fresh_world)))
    by reflexivity.
  exact (conj lcg_randint_in_range (conj H1
           (generated_array_length_and_range (Some 10) (Some 1) (Some 10)
              (Some 1) fresh_world lcg_randint_in_range H1))).
Defined.

Lemma reset_array_writes_consistent_metadata_witness :
  py_or (Some 1) (min_value (self fresh_world)) <
  py_or (Some 10) (max_value (self fresh_world)) /\
  exists arr md w',
    reset_array "2026-01-01T00:00:00" (Some 10) (Some 1) (Some 10) (Some 1)
      fresh_world = (Ok tt, w') /\
    kv_array (db (self w')) = Some arr /\
    kv_metadata (db (self w')) = Some md /\
    md !! "size" = Some (JInt (len arr)) /\
    md !! "min_value" = Some (JInt (min_value (self w'))) /\
    md !! "max_value" = Some (JInt (max_value (self w'))) /\
    md !! "seed" = Some (JInt (seed (self w'))) /\
    md !! "generated_at" = Some (JStr "2026-01-01T00:00:00") /\
    md !! "source" = Some (JStr "regenerated") /\
    fst (get_array_source w') = Ok (JStr "regenerated") /\
    _search_stats (self w') = _search_stats (self fresh_world) /\
    (forall d : RedisDatabase,
        db (self (snd (reset_array "2026-01-01T00:00:00" (Some 10) (Some 1)
                         (Some 10) (Some 1) (with_db d fresh_world))))
        = db (self w')).
Proof.
  assert (H1 : py_or (Some 1) (min_value (self fresh_world)) <
               py_or (Some 10) (max_value (self fresh_world)))
    by reflexivity.
  exact (conj H1
           (reset_array_writes_consistent_metadata "2026-01-01T00:00:00"
              (Some 10) (Some 1) (Some 10) (Some 1) fresh_world H1)).
Defined.

Lemma reset_then_search_uses_new_array_witness :
  py_or (Some 1) (min_value (self fresh_world)) <
  py_or (Some 10) (max_value (self fresh_world)) /\
  1 <= py_or (Some 10) (array_size (self fresh_world)) /\
  exists arr w1,
    reset_array "2026-01-01T00:00:00" (Some 10) (Some 1) (Some 10) (Some 1)
      fresh_world = (Ok tt, w1) /\
    kv_array (db (self w1)) = Some arr /\
    len arr = py_or (Some 10) (array_size (self fresh_world)) /\
    nondecreasing arr /\
    forall (now' : string) (t : Z),
      get_array now' w1 = (Ok arr, w1) /\
      exists out,
        search now' t w1 = (Ok out, w1) /\
        (found out = true <-> t ∈ arr) /\
        out_array_size out = py_or (Some 10) (array_size (self fresh_world)).
Proof.
  assert (H1 : py_or (Some 1) (min_value (self fresh_world)) <
               py_or (Some 10) (max_value (self fresh_world)))
    by reflexivity.
  assert (H2 : 1 <= py_or (Some 10) (array_size (self fresh_world)))
    by (intros Hgt; discriminate Hgt).
  exact (conj H1 (conj H2
           (reset_then_search_uses_new_array "2026-01-01T00:00:00"
              (Some 10) (Some 1) (Some 10) (Some 1) fresh_world H1 H2))).
Defined.

Lemma initialize_array_persists_what_it_returns_witness :
  not_array (kv_array (db (self fresh_world))) = true /\
  min_value (self fresh_world) < max_value (self fresh_world) /\
  exists arr md w',
    initialize_array "2026-01-01T00:00:00" fresh_world = (Ok arr, w') /\
    nondecreasing arr /\
    kv_array (db (self w')) = Some arr /\
    kv_metadata (db (self w')) = Some md /\
    md !! "size" = Some (JInt (len arr)) /\
    md !! "min_value" = Some (JInt (min_value (self fresh_world))) /\
    md !! "max_value" = Some (JInt (max_value (self fresh_world))) /\
    md !! "seed" = Some (JInt (seed (self fresh_world))) /\
    md !! "source" = Some (JStr "generated") /\
    fst (get_array_source w') = Ok (JStr "generated") /\
    array_size (self w') = array_size (self fresh_world) /\
    min_value (self w') = min_value (self fresh_world) /\
    max_value (self w') = max_value (self fresh_world) /\
    seed (self w') = seed (self fresh_world) /\
    (1 <= array_size (self fresh_world) ->
     forall now' : string,
       initialize_array now' w' = (Ok arr, w') /\
       get_array now' w' = (Ok arr, w')).
Proof.
  assert (H1 : not_array (kv_array (db (self fresh_world))) = true)
    by reflexivity.
  assert (H2 : min_value (self fresh_world) < max_value (self fresh_world))
    by reflexivity.
  exact (conj H1 (conj H2
           (initialize_array_persists_what_it_returns "2026-01-01T00:00:00"
              fresh_world H1 H2))).
Defined.

Lemma clear_data_then_get_array_regenerates_witness :
  min_value (self loaded_world) < max_value (self loaded_world) /\
  exists w1 w2,
    clear_data loaded_world = (Ok tt, w1) /\
    kv_array (db (self w1)) = None /\
    kv_metadata (db (self w1)) = None /\
    fst (get_array_source w1) = Ok (JStr "generated") /\
    get_array "2026-01-01T00:00:00" w1
    = (Ok (generated (array_size (self loaded_world))
             (min_value (self loaded_world)) (max_value (self loaded_world))
             (seed (self loaded_world))), w2) /\
    kv_array (db (self w2))
    = Some (generated (array_size (self loaded_world))
              (min_value (self loaded_world)) (max_value (self loaded_world))
              (seed (self loaded_world))) /\
    fst (get_array_source w2) = Ok (JStr "generated") /\
    _search_stats (self w2) = _search_stats (self loaded_world).
Proof.
  assert (H1 : min_value (self loaded_world) < max_value (self loaded_world))
    by reflexivity.
  exact (conj H1
           (clear_data_then_get_array_regenerates "2026-01-01T00:00:00"
              loaded_world H1)).
Defined.

Lemma most_searched_value_is_most_frequent_witness :
  most_searched_value
    (get_statistics "2026-01-01"
       (record_all three_searches (init_service empty_db))) = Some 9 /\
  1 <= searches_for 9 three_searches /\
  (forall v', searches_for v' three_searches
              <= searches_for 9 three_searches) /\
  (forall v', v' <> 9 ->
     searches_for v' three_searches = searches_for 9 three_searches ->
     exists rs1 r0 rs2,
       three_searches = rs1 ++ r0 :: rs2 /\ rec_value r0 = 9 /\
       Forall (fun r => rec_value r <> v') rs1).
Proof.
  assert (H1 : most_searched_value
                 (get_statistics "2026-01-01"
                    (record_all three_searches (init_service empty_db)))
               = Some 9) by reflexivity.
  exact (conj H1
           (proj2 (most_searched_value_is_most_frequent empty_db
                     three_searches "2026-01-01") 9 H1)).
Defined.

Lemma get_array_route_describes_the_stored_array_witness :
  get_array_route "2026-01-01T00:00:00" loaded_world
  = (Returns loaded_array_response, connected loaded_world) /\
  kv_array (db (self (connected loaded_world)))
  = Some (arr_array loaded_array_response) /\
  arr_size loaded_array_response = len (arr_array loaded_array_response) /\
  (exists tag, arr_source loaded_array_response = Some tag /\
               fst (get_array_source (connected loaded_world))
               = Ok (JStr tag)) /\
  (arr_array loaded_array_response = [] ->
   arr_min_value loaded_array_response = None /\
   arr_max_value loaded_array_response = None /\
   arr_is_sorted loaded_array_response = None) /\
  (arr_array loaded_array_response <> [] ->
   exists mn mx,
     arr_min_value loaded_array_response = Some mn /\
     arr_max_value loaded_array_response = Some mx /\
     mn ∈ arr_array loaded_array_response /\
     mx ∈ arr_array loaded_array_response /\
     (forall x, x ∈ arr_array loaded_array_response -> mn <= x <= mx) /\
     arr_is_sorted loaded_array_response
     = Some (is_sorted (arr_array loaded_array_response)) /\
     (arr_is_sorted loaded_array_response = Some true
      <-> nondecreasing (arr_array loaded_array_response))).
Proof.
  assert (H1 : get_array_route "2026-01-01T00:00:00" loaded_world
               = (Returns loaded_array_response, connected loaded_world))
    by reflexivity.
  exact (conj H1
           (get_array_route_describes_the_stored_array
              "2026-01-01T00:00:00" loaded_world (connected loaded_world)
              loaded_array_response H1)).
Defined.

Lemma startup_event_starts_serving_witness :
  (forall A, kv_array loaded_db = Some A -> nondecreasing A) /\
  (forall md v,
      kv_metadata loaded_db = Some md -> md !! "source" = Some v ->
      exists tag, v = JStr tag) /\
  exists w',
    startup_event "2026-01-01T00:00:00" loaded_world = (Ok tt, w') /\
    Serving w'.
Proof.
  assert (H1 : forall A, kv_array loaded_db = Some A -> nondecreasing A).
  { intros A HA. injection HA as <-.
    apply is_sorted_nondecreasing. reflexivity. }
  assert (H2 : forall md v,
             kv_metadata loaded_db = Some md -> md !! "source" = Some v ->
             exists tag, v = JStr tag).
  { intros md v Hmd Hv. injection Hmd as <-.
    assert (Hs : ({[ "source" := JStr "regenerated" ]} : gmap string jval)
                 !! "source" = Some (JStr "regenerated")) by reflexivity.
    rewrite Hs in Hv. injection Hv as <-. eexists. reflexivity. }
  exact (conj H1 (conj H2
           (startup_event_starts_serving (prng := lcg_prng)
              (pyfloat := q_float) loaded_db 0 "2026-01-01T00:00:00"
              H1 H2))).
Defined.

Lemma handle_answers_while_serving_witness :
  Serving loaded_world /\
  Request_valid (PostSearch 7 "2026-01-01T00:00:00" "2026-01-01" (1 # 2)) /\
  kv_array (db (self loaded_world)) = Some [1; 3; 5; 7; 9] /\
  Serving (snd (handle (PostSearch 7 "2026-01-01T00:00:00" "2026-01-01"
                          (1 # 2)) loaded_world)) /\
  exists r,
    fst (handle (PostSearch 7 "2026-01-01T00:00:00" "2026-01-01" (1 # 2))
           loaded_world) = Returns (SearchBody r) /\
    (resp_found r = true <-> 7 ∈ [1; 3; 5; 7; 9]) /\
    resp_value r = 7 /\ resp_array_size r = len [1; 3; 5; 7; 9] /\
    kv_array (db (self (snd (handle (PostSearch 7 "2026-01-01T00:00:00"
                                       "2026-01-01" (1 # 2)) loaded_world))))
    = Some [1; 3; 5; 7; 9].
Proof.
  assert (H2 : Request_valid
                 (PostSearch 7 "2026-01-01T00:00:00" "2026-01-01" (1 # 2)))
    by (cbn; unfold SearchRequest_valid; lia).
  assert (H3 : kv_array (db (self loaded_world)) = Some [1; 3; 5; 7; 9])
    by reflexivity.
  exact (conj loaded_world_serving (conj H2 (conj H3
           (handle_answers_while_serving
              (PostSearch 7 "2026-01-01T00:00:00" "2026-01-01" (1 # 2))
              loaded_world [1; 3; 5; 7; 9] loaded_world_serving H2 H3)))).
Defined.

Lemma serve_never_answers_with_a_server_error_witness :
  Serving loaded_world /\
  Forall Request_valid sample_requests /\
  Serving (snd (serve sample_requests loaded_world)) /\
  Forall no_server_error (fst (serve sample_requests loaded_world)) /\
  length (fst (serve sample_requests loaded_world))
  = length sample_requests.
Proof.
  exact (conj loaded_world_serving (conj sample_requests_valid
           (serve_never_answers_with_a_server_error sample_requests
              loaded_world loaded_world_serving sample_requests_valid))).
Defined.
